(** * caspio-pricing-proxy: the Python example client

    A shallow embedding of [examples/python/examples.py]: the generic
    [APIClient] (its [request] method with the two [except] handlers and the
    four convenience wrappers), the tier selection and price formula of
    [PricingCalculator.calculate_order_price], and the query parameters built
    by [search_products].

    The program is a client of the [requests] library.  What the network and
    the library answer is data of the model: an [Env] gives, for every request
    sent over the session, either the exception the library raises or the
    response it returns, and gives the JSON decoder.  Effects are kept in a
    trace of events (requests sent, bodies decoded, lines printed), threaded
    through a small state-and-exception monad. *)

From Stdlib Require Import String Ascii List ZArith Bool Lia DecimalString SpecFloat.
Import ListNotations.
Open Scope string_scope.
Open Scope Z_scope.
Set Warnings "-register-all".

(** ** Python values *)

Module Py.

(** Values of JSON shape, as [json.loads] builds them and as the client passes
    them around: [None], booleans, numbers, strings, lists and dicts.  The
    client never computes on a number, so the carrier [num] is left open.  A
    dict is kept in insertion order; its keys are distinct and a lookup takes
    the first binding. *)
Inductive value {num : Type} : Type :=
| VNone
| VBool (b : bool)
| VNum (n : num)
| VStr (s : string)
| VList (l : list value)
| VDict (d : list (string * value)).
Arguments value : clear implicits.

(** [str(n)] for a Python [int]. *)
Definition str_int (n : Z) : string := NilZero.string_of_int (Z.to_int n).

(** [d.get(k)] on an association list. *)
Fixpoint dict_get {A : Type} (k : string) (d : list (string * A)) : option A :=
  match d with
  | [] => None
  | (k', v) :: rest => if String.eqb k k' then Some v else dict_get k rest
  end.

(** [k in d] for a dict. *)
Definition dict_mem {A : Type} (k : string) (d : list (string * A)) : bool :=
  match dict_get k d with Some _ => true | None => false end.

(** [d[k] = v]: a present key keeps its place, a new key goes last. *)
Fixpoint dict_set {A : Type} (k : string) (v : A) (d : list (string * A))
  : list (string * A) :=
  match d with
  | [] => [(k, v)]
  | (k', v') :: rest =>
      if String.eqb k k' then (k', v) :: rest else (k', v') :: dict_set k v rest
  end.

(** [d.update(e)], which is also what [{**d, **e}] builds. *)
Definition dict_update {A : Type} (d e : list (string * A)) : list (string * A) :=
  fold_left (fun acc kv => dict_set (fst kv) (snd kv) acc) e d.

(** [needle in hay] for two strings: substring test. *)
Fixpoint str_contains (needle hay : string) : bool :=
  String.prefix needle hay
  || match hay with
     | EmptyString => false
     | String _ rest => str_contains needle rest
     end.

(** [s in l] for a string [s] and a list of decoded values: some element is
    equal to [s], and only a string can be. *)
Definition list_contains_str {num} (s : string) (l : list (value num)) : bool :=
  existsb (fun v => match v with VStr t => String.eqb s t | _ => false end) l.

End Py.
Import Py.

(** ** The [requests] library, as far as the client calls it *)

Module Requests.

(** [requests.Response]: the attributes the client reads. *)
Record Response : Type := {
  status_code : Z;
  reason : string;
  url : string;
  text : string
}.

(** The exceptions that can travel through [APIClient.request].
    [HTTPError] is raised by [raise_for_status] and carries the response;
    [RequestException] stands for the other classes of
    [requests.exceptions] (ConnectionError, Timeout, TooManyRedirects, ...),
    [cls] being the class name; [JSONDecodeError] is what [Response.json]
    raises on a body that does not parse; [BuiltinError] is any exception
    outside the library's hierarchy (TypeError, KeyError, ...).  [msg] is
    what [str(e)] gives. *)
Inductive exn : Type :=
| HTTPError (msg : string) (response : Response)
| RequestException (cls : string) (msg : string)
| JSONDecodeError (msg : string) (doc : string)
| BuiltinError (cls : string) (msg : string).

Definition exn_str (e : exn) : string :=
  match e with
  | HTTPError msg _ => msg
  | RequestException _ msg => msg
  | JSONDecodeError msg _ => msg
  | BuiltinError _ msg => msg
  end.

(** [isinstance(e, requests.exceptions.HTTPError)]. *)
Definition is_HTTPError (e : exn) : bool :=
  match e with HTTPError _ _ => true | _ => false end.

(** [isinstance(e, requests.exceptions.RequestException)].  HTTPError and the
    transport classes derive from it.  The decode error does since requests
    2.27 (through InvalidJSONError); before, [Response.json] raised a plain
    ValueError.  [json_is_request_exception] says which library is installed. *)
Definition is_RequestException (json_is_request_exception : bool) (e : exn) : bool :=
  match e with
  | HTTPError _ _ => true
  | RequestException _ _ => true
  | JSONDecodeError _ _ => json_is_request_exception
  | BuiltinError _ _ => false
  end.

(** The message [Response.raise_for_status] gives the error, empty when the
    status is no error status:
    [400 <= status < 500] is a client error, [500 <= status < 600] a server
    error, anything else passes. *)
Definition http_error_msg (r : Response) : string :=
  if (400 <=? status_code r) && (status_code r <? 500) then
    str_int (status_code r) ++ " Client Error: " ++ reason r
      ++ " for url: " ++ url r
  else if (500 <=? status_code r) && (status_code r <? 600) then
    str_int (status_code r) ++ " Server Error: " ++ reason r
      ++ " for url: " ++ url r
  else "".

(** [Response.raise_for_status]: [Some e] when it raises [e]. *)
Definition raise_for_status (r : Response) : option exn :=
  match http_error_msg r with
  | EmptyString => None
  | msg => Some (HTTPError msg r)
  end.

(** What [json.loads] makes of a text. *)
Inductive decoded {num : Type} : Type :=
| Parsed (v : value num)
| Malformed (msg : string).
Arguments decoded : clear implicits.

End Requests.
Import Requests.

(** [API_BASE_URL], the default [base_url] of every class of the module. *)
Definition API_BASE_URL : string :=
  "https://caspio-pricing-proxy-ab30a049961a.herokuapp.com/api".

(** ** Effects: a trace of events, and exceptions *)

(** [requests.Session]: the headers it adds to every request. *)
Record Session : Type := { headers : list (string * string) }.

(** The keyword arguments of a call, by name, in the order they are given. *)
Definition kwargs (num : Type) : Type := list (string * value num).

(** What a call leaves behind: a request handed to [Session.request], a body
    handed to the JSON decoder, a line written by [print]. *)
Inductive Event {num : Type} : Type :=
| Sent (s : Session) (method url : string) (kw : kwargs num)
| Decoded (doc : string)
| Printed (line : string).
Arguments Event : clear implicits.

Inductive Outcome (A : Type) : Type :=
| Return (a : A)
| Raise (e : exn).
Arguments Return {A} a.
Arguments Raise {A} e.

(** A computation reads the trace so far and gives its outcome and the trace
    extended by its own events, oldest first. *)
Definition M (num A : Type) : Type := list (Event num) -> Outcome A * list (Event num).

Definition ret {num A} (a : A) : M num A := fun tr => (Return a, tr).

Definition raise {num A} (e : exn) : M num A := fun tr => (Raise e, tr).

Definition bind {num A B} (m : M num A) (k : A -> M num B) : M num B :=
  fun tr =>
    match m tr with
    | (Return a, tr') => k a tr'
    | (Raise e, tr') => (Raise e, tr')
    end.

(** [try: m  except ... as e: h e]: the handler sees the events of [m] up to
    the point it raised. *)
Definition try_except {num A} (m : M num A) (h : exn -> M num A) : M num A :=
  fun tr =>
    match m tr with
    | (Return a, tr') => (Return a, tr')
    | (Raise e, tr') => h e tr'
    end.

Definition emit {num} (ev : Event num) : M num unit :=
  fun tr => (Return tt, (tr ++ [ev])%list).

Notation "x <- m ;; k" := (bind m (fun x => k))
  (at level 61, m at next level, right associativity).
Notation "m ;;; k" := (bind m (fun _ => k))
  (at level 61, right associativity).

(** ** The environment of the client *)

(** The answers of the world outside the program:
    - [transport s method url kw] is what [s.request(method, url, **kw)] does:
      it returns a response or raises;
    - [json_loads] is the decoder behind [Response.json];
    - [str_value] is [str(v)] for a decoded value that is not a string;
    - [json_is_request_exception] says whether the installed library classes
      its decode error under [RequestException]. *)
Record Env {num : Type} : Type := {
  transport : Session -> string -> string -> kwargs num -> Outcome Response;
  json_loads : string -> decoded num;
  str_value : value num -> string;
  json_is_request_exception : bool
}.
Arguments Env : clear implicits.

Section Client.

Context {num : Type} (env : Env num).

(** [session.request(method, url, **kwargs)]. *)
Definition session_request (s : Session) (method url : string) (kw : kwargs num)
  : M num Response :=
  emit (Sent s method url kw) ;;;
  match transport env s method url kw with
  | Return r => ret r
  | Raise e => raise e
  end.

(** [response.raise_for_status()]. *)
Definition call_raise_for_status (r : Response) : M num unit :=
  match raise_for_status r with
  | Some e => raise e
  | None => ret tt
  end.

(** [response.json()]. *)
Definition response_json (r : Response) : M num (value num) :=
  emit (Decoded (text r)) ;;;
  match json_loads env (text r) with
  | Parsed v => ret v
  | Malformed msg => raise (JSONDecodeError msg (text r))
  end.

(** [key in container].  The text of the TypeError is never looked at. *)
Definition py_contains (key : string) (container : value num) : M num bool :=
  match container with
  | VDict d => ret (dict_mem key d)
  | VList l => ret (list_contains_str key l)
  | VStr s => ret (str_contains key s)
  | _ => raise (BuiltinError "TypeError" "argument is not iterable")
  end.

(** [container[key]] for a string key. *)
Definition py_getitem (container : value num) (key : string) : M num (value num) :=
  match container with
  | VDict d =>
      match dict_get key d with
      | Some v => ret v
      | None => raise (BuiltinError "KeyError" key)
      end
  | _ => raise (BuiltinError "TypeError" "indices must be integers")
  end.

(** [f'{v}']: a string as it is, any other value through [str]. *)
Definition format (v : value num) : string :=
  match v with
  | VStr s => s
  | _ => str_value env v
  end.

(** ** class APIClient *)

Record APIClient : Type := {
  base_url : string;
  session : Session
}.

(** [APIClient.__init__]: [fresh] is the new [requests.Session()]; a call
    without argument takes [API_BASE_URL] for [url]. *)
Definition APIClient_init (url : string) (fresh : Session) : APIClient :=
  {| base_url := url;
     session := {| headers := dict_update (headers fresh)
                                 [("Content-Type", "application/json")] |} |}.

(** The [try] block of [request]. *)
Definition request_body (self : APIClient) (method url : string) (kw : kwargs num)
  : M num (value num) :=
  response <- session_request (session self) method url kw ;;
  call_raise_for_status response ;;;
  if negb (String.eqb (text response) "") then response_json response
  else ret (VDict []).

(** [f'HTTP {e.response.status_code}: {e.response.reason}']. *)
Definition synthesized_msg (r : Response) : string :=
  "HTTP " ++ str_int (status_code r) ++ ": " ++ reason r.

(** The inner [try] of the first handler, with its bare [except: pass]:
    the value of [error_msg] once it is over. *)
Definition extract_error_msg (response : Response) : M num (value num) :=
  let error_msg := VStr (synthesized_msg response) in
  try_except
    (error_data <- response_json response ;;
     found <- py_contains "message" error_data ;;
     if found : bool then py_getitem error_data "message" else ret error_msg)
    (fun _ => ret error_msg).

(** [f'API Request failed for {endpoint}: {msg}']. *)
Definition failure_line (endpoint msg : string) : string :=
  "API Request failed for " ++ endpoint ++ ": " ++ msg.

(** [APIClient.request]. *)
Definition request (self : APIClient) (method endpoint : string) (kw : kwargs num)
  : M num (value num) :=
  let url := base_url self ++ endpoint in
  try_except (request_body self method url kw)
    (fun e =>
       match e with
       | HTTPError _ response =>
           error_msg <- extract_error_msg response ;;
           emit (Printed (failure_line endpoint (format error_msg))) ;;;
           raise e
       | _ =>
           if is_RequestException (json_is_request_exception env) e then
             emit (Printed (failure_line endpoint (exn_str e))) ;;;
             raise e
           else raise e
       end).

(** [APIClient.get]. *)
Definition get (self : APIClient) (endpoint : string) (params : value num)
  : M num (value num) :=
  request self "GET" endpoint [("params", params)].

(** [APIClient.post]. *)
Definition post (self : APIClient) (endpoint : string) (data : value num)
  : M num (value num) :=
  request self "POST" endpoint [("json", data)].

(** [APIClient.put]. *)
Definition put (self : APIClient) (endpoint : string) (data : value num)
  : M num (value num) :=
  request self "PUT" endpoint [("json", data)].

(** [APIClient.delete]. *)
Definition delete (self : APIClient) (endpoint : string) : M num (value num) :=
  request self "DELETE" endpoint [].

End Client.

(** ** class PricingCalculator *)

Module Pricing.

(** Python numbers as the calculator uses them: the literal [0], the
    operators [+], [*], [/] and [<=], the builtin [sum] and the [int] that
    [len] returns.  [+], [*], [/] and [sum] raise where Python does
    ([OverflowError] when an [int] is too large for a float,
    [ZeroDivisionError]); the comparison of two numbers does not raise.
    [sum] adds from the int [0], left to right; how a sum of floats is
    rounded is the interpreter's (CPython from 3.12 on compensates the
    rounding errors of the additions). *)
Class PyNumber (num : Type) : Type := {
  zero : num;
  add : num -> num -> Outcome num;
  mul : num -> num -> Outcome num;
  true_div : num -> num -> Outcome num;
  leb : num -> num -> bool;
  sum : list num -> Outcome num;
  of_nat : nat -> num
}.

(** A [Dict[str, number]]: a pricing tier, the base costs per size, the answer
    of the embroidery endpoint. *)
Definition dict (num : Type) : Type := list (string * num).

(** The three endpoints behind [get_base_item_costs], [get_pricing_tiers] and
    [get_embroidery_cost]: each call returns the decoded answer of the server
    or raises (transport failure, error status, malformed body). *)
Record PricingApi {num : Type} : Type := {
  get_base_item_costs : string -> Outcome (dict num);
  get_pricing_tiers : string -> Outcome (list (dict num));
  get_embroidery_cost : string -> Z -> Outcome (dict num)
}.
Arguments PricingApi : clear implicits.

(** The dict that [calculate_order_price] returns. *)
Record OrderPrice {num : Type} : Type := {
  baseCostPerItem : num;
  decorationCostPerItem : num;
  quantity : num;
  totalCost : num
}.
Arguments OrderPrice : clear implicits.

Definition and_then {A B} (o : Outcome A) (k : A -> Outcome B) : Outcome B :=
  match o with
  | Return a => k a
  | Raise e => Raise e
  end.

Notation "'let*' x := o 'in' k" := (and_then o (fun x => k))
  (at level 10, x name, o at level 100, k at level 200).

Section Calculator.

Context {num : Type} `{PyNumber num} (api : PricingApi num).

(** [d[k]]. *)
Definition getitem (d : dict num) (k : string) : Outcome num :=
  match dict_get k d with
  | Some v => Return v
  | None => Raise (BuiltinError "KeyError" k)
  end.

(** [tier['minQuantity'] <= quantity <= tier['maxQuantity']]: the chained
    comparison reads the upper bound only when the lower one holds. *)
Definition tier_applies (qty : num) (tier : dict num) : Outcome bool :=
  let* lo := getitem tier "minQuantity" in
  if leb lo qty then
    let* hi := getitem tier "maxQuantity" in
    Return (leb qty hi)
  else Return false.

(** The [for tier in pricing_tiers: ... break] loop: [None] when it runs to
    the end. *)
Fixpoint find_applicable_tier (qty : num) (tiers : list (dict num))
  : Outcome (option (dict num)) :=
  match tiers with
  | [] => Return None
  | tier :: rest =>
      let* hit := tier_applies qty tier in
      if hit : bool then Return (Some tier) else find_applicable_tier qty rest
  end.

(** [applicable_tier['price'] if applicable_tier else 0]: [None] and the
    empty dict are falsy. *)
Definition tier_price (applicable_tier : option (dict num)) : Outcome num :=
  match applicable_tier with
  | Some (b :: t) => getitem (b :: t) "price"
  | _ => Return zero
  end.

(** Truth value of an [Optional[int]]. *)
Definition truthy_count (stitch_count : option Z) : bool :=
  match stitch_count with
  | Some n => negb (n =? 0)
  | None => false
  end.

(** [sum(d.values())]. *)
Definition sum_values (d : dict num) : Outcome num := sum (map snd d).

(** [sum(base_costs.values()) / len(base_costs) if base_costs else 0]: the
    empty dict is falsy; the sum is taken before the length. *)
Definition avg_cost (base_costs : dict num) : Outcome num :=
  match base_costs with
  | [] => Return zero
  | _ =>
      let* total := sum_values base_costs in
      true_div total (of_nat (length base_costs))
  end.

(** [PricingCalculator.calculate_order_price] (the [print] lines left out). *)
Definition calculate_order_price (style_number decoration_type : string)
    (qty : num) (stitch_count : option Z) : Outcome (OrderPrice num) :=
  let* base_costs := get_base_item_costs api style_number in
  let* pricing_tiers := get_pricing_tiers api decoration_type in
  let* applicable_tier := find_applicable_tier qty pricing_tiers in
  let* tier_cost := tier_price applicable_tier in
  let* decoration_cost :=
    if String.eqb decoration_type "Embroidery" && truthy_count stitch_count then
      match stitch_count with
      | Some n =>
          let* embroidery_result := get_embroidery_cost api "Shirt" n in
          getitem embroidery_result "cost"
      | None => Return tier_cost
      end
    else Return tier_cost in
  let* avg_base_cost := avg_cost base_costs in
  let* per_item := add avg_base_cost decoration_cost in
  let* total_cost := mul per_item qty in
  Return {| baseCostPerItem := avg_base_cost;
            decorationCostPerItem := decoration_cost;
            quantity := qty;
            totalCost := total_cost |}.

End Calculator.

(** *** The words of the claim about the calculator *)

Section CalculatorReadings.

Context {num : Type} `{PyNumber num}.

(** The tier satisfies [minQuantity <= quantity <= maxQuantity]: it has both
    bounds and the quantity is between them. *)
Definition accepts (qty : num) (tier : dict num) : bool :=
  match dict_get "minQuantity" tier, dict_get "maxQuantity" tier with
  | Some lo, Some hi => leb lo qty && leb qty hi
  | _, _ => false
  end.

(** The tier does not satisfy it: its lower bound is above the quantity
    (whether or not it has an upper bound), or its upper bound is below the
    quantity.  A tier without a lower bound, or with a lower bound that holds
    and no upper bound, neither satisfies the comparison nor fails it:
    evaluating the comparison raises [KeyError]. *)
Definition rejects (qty : num) (tier : dict num) : bool :=
  match dict_get "minQuantity" tier with
  | Some lo =>
      negb (leb lo qty)
      || match dict_get "maxQuantity" tier with
         | Some hi => negb (leb qty hi)
         | None => false
         end
  | None => false
  end.

(** [FirstMatch qty tiers a]: [a] is the first tier of the list, in list
    order, that satisfies the comparison, every tier before it failing it;
    it is [None] when every tier of the list fails it. *)
Inductive FirstMatch (qty : num) : list (dict num) -> option (dict num) -> Prop :=
| first_match_at (before : list (dict num)) (tier : dict num) (after : list (dict num)) :
    Forall (fun t => rejects qty t = true) before ->
    accepts qty tier = true ->
    FirstMatch qty (before ++ tier :: after) (Some tier)
| first_match_none (tiers : list (dict num)) :
    Forall (fun t => rejects qty t = true) tiers ->
    FirstMatch qty tiers None.

(** The mean of a list of numbers as Python computes it, [0] for no number:
    the [sum] divided by the length. *)
Definition mean (l : list num) : Outcome num :=
  match l with
  | [] => Return zero
  | _ =>
      let* total := sum l in
      true_div total (of_nat (length l))
  end.

(** The decoration type is Embroidery and a stitch count is given that
    Python takes as true: an integer other than zero. *)
Definition embroidery_with_count (decoration_type : string) (stitch_count : option Z)
  : bool :=
  String.eqb decoration_type "Embroidery"
  && match stitch_count with
     | Some n => negb (n =? 0)
     | None => false
     end.

End CalculatorReadings.

End Pricing.

(** ** Python's int and float *)

Module Number.

(** A Python number: an [int] of any size, or a [float], an IEEE 754
    binary64 value (53 bits of precision, exponents below 1024). *)
Inductive pynum : Type :=
| PyInt (z : Z)
| PyFloat (f : spec_float).

Definition OverflowError (msg : string) : exn := BuiltinError "OverflowError" msg.
Definition ZeroDivisionError (msg : string) : exn := BuiltinError "ZeroDivisionError" msg.

(** An integer as a float with the same value and exponent [0], whatever its
    size: the operand of a correctly rounded operation. *)
Definition exact_int (z : Z) : spec_float :=
  match z with
  | Z0 => S754_zero false
  | Zpos p => S754_finite false p 0
  | Zneg p => S754_finite true p 0
  end.

(** [float(z)]: rounded to the nearest float, ties to even; an [int] beyond
    the range of the floats raises. *)
Definition float_of_int (z : Z) : Outcome spec_float :=
  match binary_normalize 53 1024 z 0 false with
  | S754_infinity _ => Raise (OverflowError "int too large to convert to float")
  | f => Return f
  end.

(** The float that a decimal literal [m / 10^k] of a JSON document denotes:
    the nearest one. *)
Definition float_literal (m : Z) (k : Z) : spec_float :=
  SFdiv 53 1024 (exact_int m) (exact_int (10 ^ k)%Z).

Definition as_float (x : pynum) : Outcome spec_float :=
  match x with
  | PyInt z => float_of_int z
  | PyFloat f => Return f
  end.

(** An operator on an [int] and a [float], or on two floats: the [int] is
    converted first, the left operand before the right one. *)
Definition float_op (op : spec_float -> spec_float -> Outcome spec_float)
    (x y : pynum) : Outcome pynum :=
  match as_float x with
  | Raise e => Raise e
  | Return a =>
      match as_float y with
      | Raise e => Raise e
      | Return b =>
          match op a b with
          | Raise e => Raise e
          | Return c => Return (PyFloat c)
          end
      end
  end.

(** [x + y]: exact on two ints; float addition never raises (it gives
    [inf] beyond the range). *)
Definition py_add (x y : pynum) : Outcome pynum :=
  match x, y with
  | PyInt a, PyInt b => Return (PyInt (a + b)%Z)
  | _, _ => float_op (fun a b => Return (SFadd 53 1024 a b)) x y
  end.

(** [x * y]. *)
Definition py_mul (x y : pynum) : Outcome pynum :=
  match x, y with
  | PyInt a, PyInt b => Return (PyInt (a * b)%Z)
  | _, _ => float_op (fun a b => Return (SFmul 53 1024 a b)) x y
  end.

Definition is_zero (f : spec_float) : bool :=
  match f with
  | S754_zero _ => true
  | _ => false
  end.

(** [x / y]: the quotient of two ints is the float nearest to the exact
    quotient, and raises when that is out of range; a zero divisor raises. *)
Definition py_true_div (x y : pynum) : Outcome pynum :=
  match x, y with
  | PyInt a, PyInt b =>
      if (b =? 0)%Z then Raise (ZeroDivisionError "division by zero")
      else
        match SFdiv 53 1024 (exact_int a) (exact_int b) with
        | S754_infinity _ =>
            Raise (OverflowError "integer division result too large for a float")
        | f => Return (PyFloat f)
        end
  | _, _ =>
      float_op (fun a b =>
                  if is_zero b then Raise (ZeroDivisionError "float division by zero")
                  else Return (SFdiv 53 1024 a b)) x y
  end.

(** The value of a number on the extended line: [m * 2^e], an infinity, or
    not a number. *)
Inductive extended : Type :=
| NaN
| NegInf
| PosInf
| Fin (m e : Z).

Definition extended_of (x : pynum) : extended :=
  match x with
  | PyInt z => Fin z 0
  | PyFloat S754_nan => NaN
  | PyFloat (S754_infinity s) => if s then NegInf else PosInf
  | PyFloat (S754_zero _) => Fin 0 0
  | PyFloat (S754_finite s m e) => Fin (if s then Zneg m else Zpos m) e
  end.

(** [x <= y]: a comparison of the values, exact also between an [int] and a
    [float]; false when either side is not a number. *)
Definition py_le (x y : pynum) : bool :=
  match extended_of x, extended_of y with
  | NaN, _ => false
  | _, NaN => false
  | NegInf, _ => true
  | _, PosInf => true
  | PosInf, _ => false
  | _, NegInf => false
  | Fin m e, Fin m' e' =>
      let k := Z.min e e' in
      (m * 2 ^ (e - k) <=? m' * 2 ^ (e' - k))%Z
  end.

(** [sum(values)]: from the int [0], left to right, with [+], which is how
    CPython up to 3.11 adds floats as well. *)
Definition py_sum (l : list pynum) : Outcome pynum :=
  fold_left (fun acc v =>
               match acc with
               | Raise e => Raise e
               | Return a => py_add a v
               end) l (Return (PyInt 0)).

#[export] Instance python_number : Pricing.PyNumber pynum :=
  {| Pricing.zero := PyInt 0;
     Pricing.add := py_add;
     Pricing.mul := py_mul;
     Pricing.true_div := py_true_div;
     Pricing.leb := py_le;
     Pricing.sum := py_sum;
     Pricing.of_nat := fun n => PyInt (Z.of_nat n) |}.

End Number.

(** ** Query parameters and the request URL *)

Module Url.

(** A query parameter is a scalar or a list of scalars; scalars are kept as
    the text they are sent as. *)
Inductive qvalue : Type :=
| Scalar (s : string)
| Values (l : list string).

Definition query_params : Type := list (string * qvalue).

(** [params = {'q': query, **filters}] of [search_products]. *)
Definition search_params (query : string) (filters : query_params) : query_params :=
  dict_update [("q", Scalar query)] filters.

(** The key/value pairs of a mapping, in its order: one pair for a scalar
    entry, one pair per element for a list-valued entry. *)
Definition pairs_of (m : query_params) : list (string * string) :=
  flat_map (fun kv =>
              match snd kv with
              | Scalar s => [(fst kv, s)]
              | Values l => map (pair (fst kv)) l
              end) m.

Definition in_range (lo hi : N) (c : ascii) : bool :=
  (lo <=? N_of_ascii c)%N && (N_of_ascii c <=? hi)%N.

(** Characters that URL-encoding leaves as they are: letters, digits and
    [_ . - ~]. *)
Definition unreserved (c : ascii) : bool :=
  in_range 48 57 c || in_range 65 90 c || in_range 97 122 c
  || Ascii.eqb c "_" || Ascii.eqb c "." || Ascii.eqb c "-" || Ascii.eqb c "~".

Definition hex_digit (n : N) : ascii :=
  if (n <? 10)%N then ascii_of_N (48 + n) else ascii_of_N (55 + n).

Definition hex_value (c : ascii) : option N :=
  if in_range 48 57 c then Some (N_of_ascii c - 48)%N
  else if in_range 65 70 c then Some (N_of_ascii c - 55)%N
  else if in_range 97 102 c then Some (N_of_ascii c - 87)%N
  else None.

(** URL-encoding of one byte: itself, [+] for a space, or [%XX]. *)
Definition quote_char (c : ascii) : string :=
  if unreserved c then String c EmptyString
  else if Ascii.eqb c " " then "+"
  else String "%" (String (hex_digit (N_of_ascii c / 16))
                     (String (hex_digit (N_of_ascii c mod 16)) EmptyString)).

Fixpoint quote_plus (s : string) : string :=
  match s with
  | EmptyString => EmptyString
  | String c rest => quote_char c ++ quote_plus rest
  end.

Definition encode_pair (kv : string * string) : string :=
  quote_plus (fst kv) ++ "=" ++ quote_plus (snd kv).

(** Modelled from the spec: the function that turns the [params] mapping
    into the query string.  It is not in the repository: [search_products] and
    [APIClient.request] hand the mapping to the [requests] library.  The spec
    says that query parameters are URL-encoded and that a list-valued entry is
    serialized as repeated keys. *)
Definition urlencode (m : query_params) : string :=
  String.concat "&" (map encode_pair (pairs_of m)).

(** Modelled from the spec: the URL of a request with query parameters, the
    query string behind [base_url + endpoint] (as [APIClient.request] builds
    it) and a question mark; no question mark when there is nothing to send. *)
Definition build_url (base endpoint : string) (m : query_params) : string :=
  match urlencode m with
  | EmptyString => base ++ endpoint
  | q => base ++ endpoint ++ "?" ++ q
  end.

(** The URL [search_products] asks for. *)
Definition search_products_url (query : string) (filters : query_params) : string :=
  build_url API_BASE_URL "/products/search" (search_params query filters).

(** [s.partition(sep)] without the separator: the text before the first
    [sep] and the text after it. *)
Fixpoint cut_at (sep : ascii) (s : string) : string * string :=
  match s with
  | EmptyString => (EmptyString, EmptyString)
  | String c rest =>
      if Ascii.eqb c sep then (EmptyString, rest)
      else let (before, after) := cut_at sep rest in (String c before, after)
  end.

(** [s.split(sep)]. *)
Fixpoint split_on (sep : ascii) (s : string) : list string :=
  match s with
  | EmptyString => [EmptyString]
  | String c rest =>
      if Ascii.eqb c sep then EmptyString :: split_on sep rest
      else match split_on sep rest with
           | [] => [String c EmptyString]
           | piece :: pieces => String c piece :: pieces
           end
  end.

(** Decoding of a URL-encoded text: [+] is a space, [%XX] a byte. *)
Fixpoint unquote_plus (s : string) : string :=
  match s with
  | EmptyString => EmptyString
  | String c rest =>
      if Ascii.eqb c "+" then String " " (unquote_plus rest)
      else if Ascii.eqb c "%" then
        match rest with
        | String h (String l rest') =>
            match hex_value h, hex_value l with
            | Some a, Some b => String (ascii_of_N (16 * a + b)) (unquote_plus rest')
            | _, _ => String c (unquote_plus rest)
            end
        | _ => String c (unquote_plus rest)
        end
      else String c (unquote_plus rest)
  end.

(** Modelled from the spec: "a decoding of the built URL".  The spec names no
    decoder; this one reads the query string as a list of key/value pairs,
    blank values kept. *)
Definition parse_qsl (q : string) : list (string * string) :=
  match q with
  | EmptyString => []
  | _ => map (fun piece => let (k, v) := cut_at "=" piece in
                           (unquote_plus k, unquote_plus v))
             (split_on "&" q)
  end.

(** The query string of a URL: what follows the first question mark. *)
Definition query_of_url (u : string) : string := snd (cut_at "?" u).

(** No occurrence of [c] in [s]. *)
Fixpoint lacks (c : ascii) (s : string) : bool :=
  match s with
  | EmptyString => true
  | String c' rest => negb (Ascii.eqb c' c) && lacks c rest
  end.

(** A mapping has a list-valued entry. *)
Definition has_list_entry (m : query_params) : bool :=
  existsb (fun kv => match snd kv with Values _ => true | Scalar _ => false end) m.

End Url.

(** ** What the handlers of [request] compute, as plain functions *)

Section Readings.

Context {num : Type} (env : Env num).

(** The ["message"] entry of a decoded body, when the body is a dict that
    has one. *)
Definition message_field (v : value num) : option (value num) :=
  match v with
  | VDict d => dict_get "message" d
  | _ => None
  end.

(** The value of [error_msg] for a response with an error status: the
    ["message"] entry of its JSON body, else the synthesized line. *)
Definition error_message (r : Response) : value num :=
  match json_loads env (text r) with
  | Parsed v =>
      match message_field v with
      | Some m => m
      | None => VStr (synthesized_msg r)
      end
  | Malformed _ => VStr (synthesized_msg r)
  end.

(** The status code an exception carries, if it carries a response. *)
Definition exn_status_code (e : exn) : option Z :=
  match e with
  | HTTPError _ r => Some (status_code r)
  | _ => None
  end.

(** The requests among the events of a trace, each as it went to the
    session: method, URL, the [params] argument and the [json] argument (the
    request body). *)
Definition requests_sent (tr : list (Event num))
  : list (string * string * option (value num) * option (value num)) :=
  flat_map (fun ev =>
              match ev with
              | Sent _ method url kw =>
                  [(method, url, dict_get "params" kw, dict_get "json" kw)]
              | _ => []
              end) tr.

(** The bodies handed to the JSON decoder, in order. *)
Definition decoded_docs (tr : list (Event num)) : list string :=
  flat_map (fun ev => match ev with Decoded doc => [doc] | _ => [] end) tr.

(** The lines printed, in order. *)
Definition printed_lines (tr : list (Event num)) : list string :=
  flat_map (fun ev => match ev with Printed line => [line] | _ => [] end) tr.

(** A call of [request] that fails, with the exception behind the failure and
    the message of the failure: the session raises an exception of the
    library's transport classes, or the response has a status that
    [raise_for_status] turns into an error. *)
Inductive Failure (self : APIClient) (method endpoint : string) (kw : kwargs num)
  : exn -> string -> Prop :=
| transport_failure cls msg :
    transport env (session self) method (base_url self ++ endpoint) kw
      = Raise (RequestException cls msg) ->
    Failure self method endpoint kw (RequestException cls msg) msg
| status_failure r :
    transport env (session self) method (base_url self ++ endpoint) kw = Return r ->
    400 <= status_code r < 600 ->
    Failure self method endpoint kw (HTTPError (http_error_msg r) r)
      (format env (error_message r)).

End Readings.

(** ** A concrete server, for the examples *)

Module Example.

(** The local development server named in the source. *)
Definition local_url : string := "http://localhost:3002/api".

Definition client : APIClient := APIClient_init local_url {| headers := [] |}.

Definition quoted (s : string) : string :=
  String (ascii_of_N 34) (s ++ String (ascii_of_N 34) EmptyString).

(** The body [{"message": "Not found"}]. *)
Definition not_found_body : string :=
  "{" ++ quoted "message" ++ ": " ++ quoted "Not found" ++ "}".

(** The body [{"products": []}]. *)
Definition products_body : string := "{" ++ quoted "products" ++ ": []}".

Definition respond (status : Z) (phrase endpoint body : string) : Response :=
  {| status_code := status; reason := phrase;
     url := local_url ++ endpoint; text := body |}.

(** The event of a request without arguments going to the session. *)
Definition sent (method endpoint : string) : Event Z :=
  Sent (session client) method (local_url ++ endpoint) [].

(** What the server answers on each path; it cannot be reached for [/down]. *)
Definition answers (s : Session) (method url : string) (kw : kwargs Z)
  : Outcome Response :=
  if String.eqb url (local_url ++ "/missing") then
    Return (respond 404 "Not Found" "/missing" not_found_body)
  else if String.eqb url (local_url ++ "/broken") then
    Return (respond 500 "Internal Server Error" "/broken" EmptyString)
  else if String.eqb url (local_url ++ "/cached") then
    Return (respond 304 "Not Modified" "/cached" EmptyString)
  else if String.eqb url (local_url ++ "/moved") then
    Return (respond 301 "Moved Permanently" "/moved" not_found_body)
  else if String.eqb url (local_url ++ "/products") then
    Return (respond 200 "OK" "/products" products_body)
  else if String.eqb url (local_url ++ "/empty") then
    Return (respond 204 "No Content" "/empty" EmptyString)
  else if String.eqb url (local_url ++ "/garbled") then
    Return (respond 200 "OK" "/garbled" "<html>")
  else Raise (RequestException "ConnectionError" "Connection refused").

(** The decoder on the bodies above. *)
Definition loads (doc : string) : decoded Z :=
  if String.eqb doc not_found_body then Parsed (VDict [("message", VStr "Not found")])
  else if String.eqb doc products_body then Parsed (VDict [("products", VList [])])
  else Malformed "Expecting value: line 1 column 1 (char 0)".

Definition render (v : value Z) : string :=
  match v with
  | VNone => "None"
  | VBool true => "True"
  | VBool false => "False"
  | VNum n => str_int n
  | VStr s => s
  | VList _ => "[...]"
  | VDict _ => "{...}"
  end.

(** The library of today: its decode error is a [RequestException]. *)
Definition env : Env Z :=
  {| transport := answers; json_loads := loads; str_value := render;
     json_is_request_exception := true |}.

(** The library before 2.27: the decode error is a plain [ValueError]. *)
Definition old_env : Env Z :=
  {| transport := answers; json_loads := loads; str_value := render;
     json_is_request_exception := false |}.

(** A pricing server with four tiers, of which the second and the third
    overlap and the last is open-ended (it has no [maxQuantity]), base costs
    for two sizes, and an embroidery price.  The numbers are those of the
    JSON documents [8], [6.5], [10], [12.5] and so on. *)
Definition tiers : list (Pricing.dict Number.pynum) :=
  [ [("minQuantity", Number.PyInt 1); ("maxQuantity", Number.PyInt 23);
     ("price", Number.PyInt 8)];
    [("minQuantity", Number.PyInt 24); ("maxQuantity", Number.PyInt 71);
     ("price", Number.PyFloat (Number.float_literal 65 1))];
    [("minQuantity", Number.PyInt 48); ("maxQuantity", Number.PyInt 143);
     ("price", Number.PyInt 5)];
    [("minQuantity", Number.PyInt 144); ("price", Number.PyInt 4)] ].

Definition base_costs : Pricing.dict Number.pynum :=
  [("S", Number.PyInt 10); ("XL", Number.PyFloat (Number.float_literal 125 1))].

Definition api : Pricing.PricingApi Number.pynum :=
  {| Pricing.get_base_item_costs := fun _ => Return base_costs;
     Pricing.get_pricing_tiers := fun _ => Return tiers;
     Pricing.get_embroidery_cost :=
       fun _ _ => Return [("cost", Number.PyFloat (Number.float_literal 725 2))] |}.

(** A server whose only tier is closed, from 1 to [hi]. *)
Definition closed_api (hi : Z) : Pricing.PricingApi Number.pynum :=
  {| Pricing.get_base_item_costs := fun _ => Return base_costs;
     Pricing.get_pricing_tiers :=
       fun _ => Return [[("minQuantity", Number.PyInt 1);
                         ("maxQuantity", Number.PyInt hi);
                         ("price", Number.PyInt 8)]];
     Pricing.get_embroidery_cost := fun _ _ => Return [("cost", Number.PyInt 7)] |}.

End Example.

(** * The rest of the module *)

(** ** What the other functions need from outside *)

(** Besides the [Env] of the client:
    - [fresh_session] is the session the library opens for a call of
      [requests.get] or [requests.post], and the one [requests.Session()]
      gives;
    - [nonzero] is the truth value of a number;
    - [clock] gives [int(time.time())] and [hash(datetime.now())] for a
      reading taken after the given events. *)
Record World {num : Type} : Type := {
  env_of : Env num;
  fresh_session : Session;
  nonzero : num -> bool;
  clock : list (Event num) -> Z * Z
}.
Arguments World : clear implicits.

(** Methods of an object with attributes: a computation that also reads and
    writes the object [S].  What was written before an exception stays
    written. *)
Definition Meth (num S A : Type) : Type :=
  S -> list (Event num) -> Outcome A * S * list (Event num).

Definition mret {num S A} (a : A) : Meth num S A := fun s tr => (Return a, s, tr).

Definition mbind {num S A B} (m : Meth num S A) (k : A -> Meth num S B)
  : Meth num S B :=
  fun s tr =>
    match m s tr with
    | (Return a, s', tr') => k a s' tr'
    | (Raise e, s', tr') => (Raise e, s', tr')
    end.

(** A computation that does not touch the object. *)
Definition lift {num S A} (m : M num A) : Meth num S A :=
  fun s tr => let (o, tr') := m tr in (o, s, tr').

Definition get_self {num S} : Meth num S S := fun s tr => (Return s, s, tr).

Definition set_self {num S} (s' : S) : Meth num S unit := fun _ tr => (Return tt, s', tr).

Notation "x <~ m ;; k" := (mbind m (fun x => k))
  (at level 61, m at next level, right associativity).
Notation "m ;;~ k" := (mbind m (fun _ => k))
  (at level 61, right associativity).

Section Library.

Context {num : Type} (w : World num).

(** Truth value of a Python value: [None], [False], zero and the empty
    string, list and dict are false. *)
Definition truthy (v : value num) : bool :=
  match v with
  | VNone => false
  | VBool b => b
  | VNum n => nonzero w n
  | VStr s => negb (String.eqb s EmptyString)
  | VList l => match l with [] => false | _ => true end
  | VDict d => match d with [] => false | _ => true end
  end.

(** [requests.get(url, **kw)]: a GET over a session of its own. *)
Definition requests_get (url : string) (kw : kwargs num) : M num Response :=
  session_request (env_of w) (fresh_session w) "GET" url kw.

(** [requests.post(url, **kw)]. *)
Definition requests_post (url : string) (kw : kwargs num) : M num Response :=
  session_request (env_of w) (fresh_session w) "POST" url kw.

(** [except requests.exceptions.RequestException as e: print(f'{label}: {e}'); raise]. *)
Definition log_and_reraise {A} (label : string) (e : exn) : M num A :=
  if is_RequestException (json_is_request_exception (env_of w)) e then
    emit (Printed (label ++ ": " ++ exn_str e)) ;;;
    raise e
  else raise e.

(** ** 1. Product search *)

(** [search_products(query, **filters)]. *)
Definition search_products (query : string) (filters : list (string * value num))
  : M num (value num) :=
  let params := VDict (dict_update [("q", VStr query)] filters) in
  try_except
    (response <- requests_get (API_BASE_URL ++ "/products/search")
                   [("params", params)] ;;
     call_raise_for_status response ;;;
     response_json (env_of w) response)
    (log_and_reraise "Product search failed").

(** ** 5. Product details and inventory *)

(** [get_product_with_inventory(style_number, color)]. *)
Definition get_product_with_inventory (style_number color : string)
  : M num (value num) :=
  try_except
    (details_response <-
       requests_get (API_BASE_URL ++ "/product-details")
         [("params", VDict [("styleNumber", VStr style_number);
                            ("color", VStr color)])] ;;
     call_raise_for_status details_response ;;;
     product_details <- response_json (env_of w) details_response ;;
     inventory_response <-
       requests_get (API_BASE_URL ++ "/inventory")
         [("params", VDict [("styleNumber", VStr style_number);
                            ("color", VStr color)])] ;;
     call_raise_for_status inventory_response ;;;
     inventory <- response_json (env_of w) inventory_response ;;
     sizes_response <-
       requests_get (API_BASE_URL ++ "/sizes-by-style-color")
         [("params", VDict [("styleNumber", VStr style_number);
                            ("color", VStr color)])] ;;
     call_raise_for_status sizes_response ;;;
     sizes <- response_json (env_of w) sizes_response ;;
     ret (VDict [("product", product_details);
                 ("inventory", inventory);
                 ("available_sizes", sizes)]))
    (log_and_reraise "Failed to get product with inventory").

End Library.

(** ** 2. class CartManager *)

Module Cart.

Record CartManager {num : Type} : Type := {
  base_url : string;
  session_id : value num
}.
Arguments CartManager : clear implicits.

Section Methods.

Context {num : Type} (w : World num).

(** [CartManager.__init__]. *)
Definition init (url : string) : CartManager num :=
  {| base_url := url; session_id := VNone |}.

(** [f"session_{int(time.time())}_{hash(datetime.now())}"], for a clock read
    after the events [tr]. *)
Definition generated_id (tr : list (Event num)) : string :=
  "session_" ++ str_int (fst (clock w tr)) ++ "_" ++ str_int (snd (clock w tr)).

(** [CartManager.create_session]. *)
Definition create_session (user_id : value num)
  : Meth num (CartManager num) (value num) :=
  fun self0 tr0 =>
    (let session_id := generated_id tr0 in
     let data := VDict [("SessionID", VStr session_id);
                        ("UserID", user_id);
                        ("IsActive", VBool true)] in
     self <~ get_self ;;
     response <~ lift (requests_post w (base_url self ++ "/cart-sessions")
                         [("json", data)]) ;;
     lift (call_raise_for_status response) ;;~
     session <~ lift (response_json (env_of w) response) ;;
     sid <~ lift (py_getitem session "SessionID") ;;
     set_self {| base_url := base_url self; session_id := sid |} ;;~
     mret session) self0 tr0.

(** [CartManager.add_item]. *)
Definition add_item (product_id style_number color title : string)
  : Meth num (CartManager num) (value num) :=
  self <~ get_self ;;
  (if negb (truthy w (session_id self)) then
     create_session VNone ;;~ mret tt
   else mret tt) ;;~
  self <~ get_self ;;
  let data := VDict [("SessionID", session_id self);
                     ("ProductID", VStr product_id);
                     ("StyleNumber", VStr style_number);
                     ("Color", VStr color);
                     ("PRODUCT_TITLE", VStr title);
                     ("CartStatus", VStr "Active")] in
  response <~ lift (requests_post w (base_url self ++ "/cart-items")
                      [("json", data)]) ;;
  lift (call_raise_for_status response) ;;~
  lift (response_json (env_of w) response).

(** The [data] of [add_item_size]: [UnitPrice] is set only for a price that
    is true. *)
Definition size_data (cart_item_id : value num) (size : string)
    (quantity unit_price : value num) : list (string * value num) :=
  let data := [("CartItemID", cart_item_id);
               ("Size", VStr size);
               ("Quantity", quantity)] in
  if truthy w unit_price then dict_set "UnitPrice" unit_price data else data.

(** [CartManager.add_item_size]. *)
Definition add_item_size (cart_item_id : value num) (size : string)
    (quantity unit_price : value num) : Meth num (CartManager num) (value num) :=
  self <~ get_self ;;
  response <~ lift (requests_post w (base_url self ++ "/cart-item-sizes")
                      [("json", VDict (size_data cart_item_id size quantity unit_price))]) ;;
  lift (call_raise_for_status response) ;;~
  lift (response_json (env_of w) response).

(** [CartManager.get_cart_items]. *)
Definition get_cart_items : Meth num (CartManager num) (value num) :=
  self <~ get_self ;;
  if negb (truthy w (session_id self)) then mret (VList [])
  else
    response <~ lift (requests_get w (base_url self ++ "/cart-items")
                        [("params", VDict [("sessionID", session_id self)])]) ;;
    lift (call_raise_for_status response) ;;~
    lift (response_json (env_of w) response).

End Methods.

End Cart.

(** ** 3. class OrderDashboard *)

Module Dashboard.

Section Methods.

Context {num : Type} (w : World num).

(** [OrderDashboard.get_metrics] of a dashboard with this [base_url]. *)
Definition get_metrics (base_url : string) (days : value num)
    (include_details compare_yoy : bool) : M num (value num) :=
  let params := VDict [("days", days);
                       ("includeDetails", VBool include_details);
                       ("compareYoY", VBool compare_yoy)] in
  response <- requests_get w (base_url ++ "/order-dashboard") [("params", params)] ;;
  call_raise_for_status response ;;;
  response_json (env_of w) response.

(** The [params] of [get_order_records]: a filter goes in when it is true. *)
Definition record_params (where_ order_by limit : value num)
  : list (string * value num) :=
  let params := [] in
  let params := if truthy w where_ then dict_set "q.where" where_ params else params in
  let params := if truthy w order_by then dict_set "q.orderBy" order_by params else params in
  let params := if truthy w limit then dict_set "q.limit" limit params else params in
  params.

(** [OrderDashboard.get_order_records]. *)
Definition get_order_records (base_url : string) (where_ order_by limit : value num)
  : M num (value num) :=
  response <- requests_get w (base_url ++ "/order-odbc")
                [("params", VDict (record_params where_ order_by limit))] ;;
  call_raise_for_status response ;;;
  response_json (env_of w) response.

End Methods.

End Dashboard.

(** ** 7. class ArtRequestManager *)

Module Art.

Section Methods.

Context {num : Type} (w : World num).

(** [ArtRequestManager.__init__]: the manager is its client. *)
Definition init (url : string) : APIClient := APIClient_init url (fresh_session w).

(** [ArtRequestManager.get_art_requests], called with keyword [filters]. *)
Definition get_art_requests (client : APIClient) (filters : list (string * value num))
  : M num (value num) :=
  get (env_of w) client "/artrequests" (VDict filters).

(** [ArtRequestManager.create_art_request]; the default of [status] is
    ['In Progress']. *)
Definition create_art_request (client : APIClient) (company_name status : string)
    (additional_fields : list (string * value num)) : M num (value num) :=
  let data := VDict (dict_update [("CompanyName", VStr company_name);
                                  ("Status", VStr status)]
                                 additional_fields) in
  post (env_of w) client "/artrequests" data.

(** [ArtRequestManager.update_art_request]. *)
Definition update_art_request (client : APIClient) (request_id : Z)
    (updates : list (string * value num)) : M num (value num) :=
  put (env_of w) client ("/artrequests/" ++ str_int request_id) (VDict updates).

End Methods.

End Art.

(** ** The three lines every function of the module repeats, read as a whole *)

Section Answers.

Context {num : Type} (env : Env num).

(** What comes of [response = s.request(...)], [response.raise_for_status()],
    [response.json()] in a row: the decoded body, or the first exception. *)
Definition answer (s : Session) (method url : string) (kw : kwargs num)
  : Outcome (value num) :=
  match transport env s method url kw with
  | Raise e => Raise e
  | Return r =>
      match raise_for_status r with
      | Some e => Raise e
      | None =>
          match json_loads env (text r) with
          | Parsed v => Return v
          | Malformed msg => Raise (JSONDecodeError msg (text r))
          end
      end
  end.

(** The events of these three lines: the request, and the decoding when the
    status lets it happen. *)
Definition answer_events (s : Session) (method url : string) (kw : kwargs num)
  : list (Event num) :=
  Sent s method url kw
  :: match transport env s method url kw with
     | Return r =>
         match raise_for_status r with
         | None => [Decoded (text r)]
         | Some _ => []
         end
     | Raise _ => []
     end.

End Answers.

(** ** A shop on the local server, for the examples of the other classes *)

Module Shop.

Import Example.

(** A server given by a table of (method, URL, response); it cannot be
    reached for anything else. *)
Fixpoint serve (table : list (string * string * Response))
    (s : Session) (method url : string) (kw : kwargs Z) : Outcome Response :=
  match table with
  | [] => Raise (RequestException "ConnectionError" "Connection refused")
  | (m, u, r) :: rest =>
      if String.eqb m method && String.eqb u url then Return r
      else serve rest s method url kw
  end.

Definition ok (url body : string) : Response :=
  {| status_code := 200; reason := "OK"; url := url; text := body |}.

Definition failed (status : Z) (phrase url body : string) : Response :=
  {| status_code := status; reason := phrase; url := url; text := body |}.

(** The body [{"SessionID": "srv-1"}]. *)
Definition session_body : string :=
  "{" ++ quoted "SessionID" ++ ": " ++ quoted "srv-1" ++ "}".

(** The body [{"PK_ID": 7}]. *)
Definition item_body : string := "{" ++ quoted "PK_ID" ++ ": 7}".

(** The body [{"title": "Essential Tee"}]. *)
Definition details_body : string :=
  "{" ++ quoted "title" ++ ": " ++ quoted "Essential Tee" ++ "}".

Definition loads (doc : string) : decoded Z :=
  if String.eqb doc session_body then Parsed (VDict [("SessionID", VStr "srv-1")])
  else if String.eqb doc item_body then Parsed (VDict [("PK_ID", VNum 7)])
  else if String.eqb doc details_body then Parsed (VDict [("title", VStr "Essential Tee")])
  else if String.eqb doc "[]" then Parsed (VList [])
  else if String.eqb doc not_found_body then Parsed (VDict [("message", VStr "Not found")])
  else Malformed "Expecting value: line 1 column 1 (char 0)".

Definition world (table : list (string * string * Response)) : World Z :=
  {| env_of := {| transport := serve table; json_loads := loads;
                  str_value := render; json_is_request_exception := true |};
     fresh_session := {| headers := [] |};
     nonzero := fun n => negb (n =? 0);
     clock := fun tr => (1700000000 + Z.of_nat (length tr), 42) |}.

Definition search_url : string := API_BASE_URL ++ "/products/search".
Definition details_url : string := API_BASE_URL ++ "/product-details".
Definition inventory_url : string := API_BASE_URL ++ "/inventory".
Definition sizes_url : string := API_BASE_URL ++ "/sizes-by-style-color".

(** Everything works. *)
Definition open_shop : World Z :=
  world [ ("POST", local_url ++ "/cart-sessions", ok (local_url ++ "/cart-sessions") session_body);
          ("POST", local_url ++ "/cart-items", ok (local_url ++ "/cart-items") item_body);
          ("POST", local_url ++ "/cart-item-sizes", ok (local_url ++ "/cart-item-sizes") item_body);
          ("GET", local_url ++ "/cart-items", ok (local_url ++ "/cart-items") "[]");
          ("GET", search_url, ok search_url "[]");
          ("GET", details_url, ok details_url details_body);
          ("GET", inventory_url, ok inventory_url "[]");
          ("GET", sizes_url, ok sizes_url "[]");
          ("POST", local_url ++ "/artrequests", ok (local_url ++ "/artrequests") item_body) ].

(** Sessions can be opened, but every other path is out of order: the search
    answers 404 with a message, the inventory 503, the rest 500 or nothing. *)
Definition broken_shop : World Z :=
  world [ ("POST", local_url ++ "/cart-sessions", ok (local_url ++ "/cart-sessions") session_body);
          ("POST", local_url ++ "/cart-items",
             failed 500 "Internal Server Error" (local_url ++ "/cart-items") EmptyString);
          ("GET", local_url ++ "/order-dashboard",
             failed 500 "Internal Server Error" (local_url ++ "/order-dashboard") EmptyString);
          ("PUT", local_url ++ "/artrequests/5",
             failed 404 "Not Found" (local_url ++ "/artrequests/5") not_found_body);
          ("GET", search_url, failed 404 "Not Found" search_url not_found_body);
          ("GET", details_url, ok details_url details_body);
          ("GET", inventory_url,
             failed 503 "Service Unavailable" inventory_url EmptyString) ].

(** The search answers 200 with an empty body. *)
Definition silent_shop : World Z :=
  world [ ("GET", search_url, ok search_url EmptyString) ].

End Shop.

(** * Properties of [APIClient] *)

Section ClientFacts.

Context {num : Type} (env : Env num).

(** ** [raise_for_status] *)

Ltac status_cases r :=
  destruct (400 <=? status_code r) eqn:?, (status_code r <? 500) eqn:?,
           (500 <=? status_code r) eqn:?, (status_code r <? 600) eqn:?;
  simpl.

Ltac status_absurd :=
  exfalso;
  repeat match goal with
         | H : (_ <=? _) = true |- _ => apply Z.leb_le in H
         | H : (_ <=? _) = false |- _ => apply Z.leb_gt in H
         | H : (_ <? _) = true |- _ => apply Z.ltb_lt in H
         | H : (_ <? _) = false |- _ => apply Z.ltb_ge in H
         end;
  lia.

Lemma http_error_msg_empty (r : Response) :
  status_code r < 400 \/ 600 <= status_code r -> http_error_msg r = EmptyString.
Proof.
  intros Hr. unfold http_error_msg.
  status_cases r; try reflexivity; status_absurd.
Qed.

Lemma append_cons_nonempty (a : string) (c : ascii) (b : string) :
  (a ++ String c b)%string <> EmptyString.
Proof. destruct a; simpl; discriminate. Qed.

Lemma http_error_msg_nonempty (r : Response) :
  400 <= status_code r < 600 -> http_error_msg r <> EmptyString.
Proof.
  intros Hr. unfold http_error_msg.
  status_cases r; try apply append_cons_nonempty; status_absurd.
Qed.

Lemma raise_for_status_passes (r : Response) :
  status_code r < 400 \/ 600 <= status_code r -> raise_for_status r = None.
Proof.
  intros Hr. unfold raise_for_status. now rewrite http_error_msg_empty.
Qed.

Lemma raise_for_status_raises (r : Response) :
  400 <= status_code r < 600 ->
  raise_for_status r = Some (HTTPError (http_error_msg r) r).
Proof.
  intros Hr. unfold raise_for_status.
  destruct (http_error_msg r) eqn:E; [|reflexivity].
  now apply http_error_msg_nonempty in Hr.
Qed.

(** ** The inner [try] of the first handler *)

(** Whatever the body of the response is, the inner [try] ends normally: it
    reads the body once and leaves in [error_msg] the ["message"] entry of a
    dict that has one, else the synthesized line.  A body that does not
    parse, a decoded value that is no dict, a dict without the entry: all end
    on the synthesized line. *)
Lemma extract_error_msg_spec (r : Response) (tr : list (Event num)) :
  extract_error_msg env r tr
  = (Return (error_message env r), (tr ++ [Decoded (text r)])%list).
Proof.
  unfold extract_error_msg, error_message, try_except, bind, response_json, emit.
  destruct (json_loads env (text r)) as [v|msg]; simpl; [|reflexivity].
  destruct v as [| b | n | s | l | d]; simpl; try reflexivity.
  - destruct (str_contains "message" s); reflexivity.
  - destruct (list_contains_str "message" l); reflexivity.
  - unfold dict_mem. destruct (dict_get "message" d); reflexivity.
Qed.

(** ** The two outcomes of a response, and the transport failure *)

Lemma request_error_status (self : APIClient) (method endpoint : string)
    (kw : kwargs num) (tr : list (Event num)) (r : Response) :
  transport env (session self) method (base_url self ++ endpoint) kw = Return r ->
  400 <= status_code r < 600 ->
  request env self method endpoint kw tr
  = (Raise (HTTPError (http_error_msg r) r),
     (tr ++ [Sent (session self) method (base_url self ++ endpoint) kw;
             Decoded (text r);
             Printed (failure_line endpoint (format env (error_message env r)))])%list).
Proof.
  intros Ht Hs.
  unfold request, try_except, request_body, bind, session_request,
    call_raise_for_status, emit.
  simpl. rewrite Ht. simpl. rewrite (raise_for_status_raises r Hs). simpl.
  rewrite extract_error_msg_spec. simpl.
  now rewrite <- !app_assoc.
Qed.

Lemma request_passing_status (self : APIClient) (method endpoint : string)
    (kw : kwargs num) (tr : list (Event num)) (r : Response) :
  transport env (session self) method (base_url self ++ endpoint) kw = Return r ->
  status_code r < 400 \/ 600 <= status_code r ->
  request env self method endpoint kw tr
  = let sent := (tr ++ [Sent (session self) method (base_url self ++ endpoint) kw])%list in
    if String.eqb (text r) EmptyString then (Return (VDict []), sent)
    else
      match json_loads env (text r) with
      | Parsed v => (Return v, (sent ++ [Decoded (text r)])%list)
      | Malformed msg =>
          (Raise (JSONDecodeError msg (text r)),
           (sent ++ Decoded (text r)
                 :: if json_is_request_exception env
                    then [Printed (failure_line endpoint msg)] else [])%list)
      end.
Proof.
  intros Ht Hs.
  unfold request, try_except, request_body, bind, session_request,
    call_raise_for_status, response_json, emit.
  simpl. rewrite Ht. simpl. rewrite (raise_for_status_passes r Hs). simpl.
  destruct (String.eqb (text r) EmptyString); simpl; [reflexivity|].
  destruct (json_loads env (text r)); simpl; [reflexivity|].
  destruct (json_is_request_exception env); simpl;
    now rewrite <- ?app_assoc.
Qed.

Lemma request_session_raises (self : APIClient) (method endpoint : string)
    (kw : kwargs num) (tr : list (Event num)) (cls msg : string) :
  transport env (session self) method (base_url self ++ endpoint) kw
    = Raise (RequestException cls msg) ->
  request env self method endpoint kw tr
  = (Raise (RequestException cls msg),
     (tr ++ [Sent (session self) method (base_url self ++ endpoint) kw;
             Printed (failure_line endpoint msg)])%list).
Proof.
  intros Ht.
  unfold request, try_except, request_body, bind, session_request, emit.
  simpl. rewrite Ht. simpl. now rewrite <- app_assoc.
Qed.

End ClientFacts.

Section ClientTraces.

Context {num : Type} (env : Env num).

Lemma requests_sent_app (a b : list (Event num)) :
  requests_sent (a ++ b) = (requests_sent a ++ requests_sent b)%list.
Proof. unfold requests_sent. apply flat_map_app. Qed.

Lemma decoded_docs_app (a b : list (Event num)) :
  decoded_docs (a ++ b) = (decoded_docs a ++ decoded_docs b)%list.
Proof. unfold decoded_docs. apply flat_map_app. Qed.

(** Every call of [request] hands exactly one request to the session, the
    one it was asked for, whatever the outcome: there is no second attempt. *)
Lemma request_sends_once (self : APIClient) (method endpoint : string)
    (kw : kwargs num) (tr : list (Event num)) :
  requests_sent (snd (request env self method endpoint kw tr))
  = (requests_sent tr
     ++ [(method, (base_url self ++ endpoint)%string,
          dict_get "params" kw, dict_get "json" kw)])%list.
Proof.
  destruct (transport env (session self) method (base_url self ++ endpoint) kw)
    as [r|e] eqn:Ht.
  - destruct (Z_lt_ge_dec (status_code r) 400) as [Hlo|Hlo];
      [|destruct (Z_lt_ge_dec (status_code r) 600) as [Hhi|Hhi]].
    + rewrite (request_passing_status env self method endpoint kw tr r Ht) by lia.
      cbv zeta.
      destruct (String.eqb (text r) EmptyString);
        [|destruct (json_loads env (text r));
          [|destruct (json_is_request_exception env)]];
        cbn [snd]; rewrite ?requests_sent_app; cbn; now rewrite ?app_nil_r.
    + rewrite (request_error_status env self method endpoint kw tr r Ht) by lia.
      cbn [snd]. now rewrite requests_sent_app.
    + rewrite (request_passing_status env self method endpoint kw tr r Ht) by lia.
      cbv zeta.
      destruct (String.eqb (text r) EmptyString);
        [|destruct (json_loads env (text r));
          [|destruct (json_is_request_exception env)]];
        cbn [snd]; rewrite ?requests_sent_app; cbn; now rewrite ?app_nil_r.
  - unfold request, try_except, request_body, bind, session_request, emit.
    simpl. rewrite Ht. simpl.
    destruct e as [m r|cls m|m doc|cls m]; simpl.
    + rewrite extract_error_msg_spec. simpl.
      rewrite !requests_sent_app. cbn. now rewrite !app_nil_r.
    + rewrite !requests_sent_app. cbn. now rewrite ?app_nil_r.
    + destruct (json_is_request_exception env); simpl;
        rewrite ?requests_sent_app; cbn; now rewrite ?app_nil_r.
    + now rewrite requests_sent_app.
Qed.

End ClientTraces.

(** * The claims about [APIClient.request] *)

Section ClientClaims.

Context {num : Type} (env : Env num).

(** C3.  When the server answers with a 2xx status and a non-empty body that
    parses as JSON, [request] returns exactly the parsed structure; it has
    sent one request and decoded the body once. *)
Theorem request_returns_parsed_body (self : APIClient) (method endpoint : string)
    (kw : kwargs num) (tr : list (Event num)) (r : Response) (v : value num) :
  transport env (session self) method (base_url self ++ endpoint) kw = Return r ->
  200 <= status_code r < 300 ->
  text r <> EmptyString ->
  json_loads env (text r) = Parsed v ->
  request env self method endpoint kw tr
  = (Return v,
     (tr ++ [Sent (session self) method (base_url self ++ endpoint) kw;
             Decoded (text r)])%list).
Proof.
  intros Ht Hs Hne Hj.
  rewrite (request_passing_status env self method endpoint kw tr r Ht) by lia.
  cbv zeta. apply String.eqb_neq in Hne. rewrite Hne, Hj.
  now rewrite <- app_assoc.
Qed.

(** C4.  When the server answers with a 2xx status and an empty body,
    [request] returns the empty dict, which is not [None], without calling
    the decoder. *)
Theorem request_empty_body_returns_empty_dict (self : APIClient)
    (method endpoint : string) (kw : kwargs num) (tr : list (Event num))
    (r : Response) :
  transport env (session self) method (base_url self ++ endpoint) kw = Return r ->
  200 <= status_code r < 300 ->
  text r = EmptyString ->
  request env self method endpoint kw tr
  = (Return (VDict []),
     (tr ++ [Sent (session self) method (base_url self ++ endpoint) kw])%list)
  /\ VDict [] <> @VNone num.
Proof.
  intros Ht Hs He. split; [|discriminate].
  rewrite (request_passing_status env self method endpoint kw tr r Ht) by lia.
  cbv zeta. now rewrite He.
Qed.

(** C5.  When the session raises an exception of the library's transport
    classes (no response was received), [request] raises that very exception
    after printing one line; no body is handed to the decoder, and exactly
    one request went to the session. *)
Theorem request_transport_failure (self : APIClient) (method endpoint : string)
    (kw : kwargs num) (tr : list (Event num)) (cls msg : string) :
  transport env (session self) method (base_url self ++ endpoint) kw
    = Raise (RequestException cls msg) ->
  request env self method endpoint kw tr
  = (Raise (RequestException cls msg),
     (tr ++ [Sent (session self) method (base_url self ++ endpoint) kw;
             Printed (failure_line endpoint msg)])%list)
  /\ decoded_docs (snd (request env self method endpoint kw tr)) = decoded_docs tr
  /\ requests_sent (snd (request env self method endpoint kw tr))
     = (requests_sent tr
        ++ [(method, (base_url self ++ endpoint)%string,
             dict_get "params" kw, dict_get "json" kw)])%list.
Proof.
  intros Ht.
  rewrite (request_session_raises env self method endpoint kw tr cls msg Ht).
  repeat split.
  - cbn [snd]. rewrite decoded_docs_app. cbn. now rewrite app_nil_r.
  - cbn [snd]. now rewrite requests_sent_app.
Qed.

(** C1, as the code has it.  When the server answers with a 4xx or 5xx status
    and a JSON object that has a ["message"] entry, the line [request] prints
    carries that entry's value, and the error it raises is the [HTTPError] of
    [raise_for_status], unchanged: it carries the response, so its status
    code is the response's, and its own message is the library's status
    line. *)
Theorem request_error_logs_message_field (self : APIClient)
    (method endpoint : string) (kw : kwargs num) (tr : list (Event num))
    (r : Response) (d : list (string * value num)) (v : value num) :
  transport env (session self) method (base_url self ++ endpoint) kw = Return r ->
  400 <= status_code r < 600 ->
  json_loads env (text r) = Parsed (VDict d) ->
  dict_get "message" d = Some v ->
  request env self method endpoint kw tr
  = (Raise (HTTPError (http_error_msg r) r),
     (tr ++ [Sent (session self) method (base_url self ++ endpoint) kw;
             Decoded (text r);
             Printed (failure_line endpoint (format env v))])%list)
  /\ exn_status_code (HTTPError (http_error_msg r) r) = Some (status_code r)
  /\ exn_str (HTTPError (http_error_msg r) r) = http_error_msg r.
Proof.
  intros Ht Hs Hj Hm. repeat split.
  rewrite (request_error_status env self method endpoint kw tr r Ht Hs).
  unfold error_message. rewrite Hj. cbn [message_field]. now rewrite Hm.
Qed.

(** C2, as the code has it.  When the server answers with a 4xx or 5xx status
    and a body that does not parse as JSON, or parses to a value without a
    ["message"] entry, the line [request] prints carries the synthesized
    message [HTTP {status}: {reason}]; the failure of the decoder is caught
    and nothing but the [HTTPError] of [raise_for_status] is raised, with
    the library's status line as its message. *)
Theorem request_error_logs_synthesized_message (self : APIClient)
    (method endpoint : string) (kw : kwargs num) (tr : list (Event num))
    (r : Response) :
  transport env (session self) method (base_url self ++ endpoint) kw = Return r ->
  400 <= status_code r < 600 ->
  match json_loads env (text r) with
  | Parsed v => message_field v = None
  | Malformed _ => True
  end ->
  request env self method endpoint kw tr
  = (Raise (HTTPError (http_error_msg r) r),
     (tr ++ [Sent (session self) method (base_url self ++ endpoint) kw;
             Decoded (text r);
             Printed (failure_line endpoint
                        ("HTTP " ++ str_int (status_code r) ++ ": " ++ reason r))])%list)
  /\ exn_str (HTTPError (http_error_msg r) r) = http_error_msg r.
Proof.
  intros Ht Hs Hj. split; [|reflexivity].
  rewrite (request_error_status env self method endpoint kw tr r Ht Hs).
  unfold error_message.
  destruct (json_loads env (text r)) as [v|msg]; [rewrite Hj|]; reflexivity.
Qed.

(** C6, as the code has it.  When a call fails, by an exception of the
    transport classes or by a 4xx or 5xx status, [request] raises the
    exception, and the last thing it did before is to print the line with
    the endpoint and the message of the failure. *)
Theorem request_failure_logged_then_raised (self : APIClient)
    (method endpoint : string) (kw : kwargs num) (tr : list (Event num))
    (e : exn) (msg : string) :
  Failure env self method endpoint kw e msg ->
  exists pre,
    request env self method endpoint kw tr
    = (Raise e,
       (tr ++ pre
           ++ [Printed ("API Request failed for " ++ endpoint ++ ": " ++ msg)])%list).
Proof.
  intros [cls m Ht | r Ht Hs].
  - exists [Sent (session self) method (base_url self ++ endpoint)%string kw].
    now rewrite (request_session_raises env self method endpoint kw tr cls m Ht).
  - exists [Sent (session self) method (base_url self ++ endpoint)%string kw;
            Decoded (text r)].
    now rewrite (request_error_status env self method endpoint kw tr r Ht Hs).
Qed.

(** C7, as the code has it.  When the server answers with a 2xx status and a
    non-empty body that does not parse, the decoder's own exception reaches
    the caller: it is no [HTTPError], carries no status code, and has the
    decoder's message.  [request] prints the failure line exactly when the
    library classes the decode error under [RequestException]. *)
Theorem request_decode_failure_propagates (self : APIClient)
    (method endpoint : string) (kw : kwargs num) (tr : list (Event num))
    (r : Response) (msg : string) :
  transport env (session self) method (base_url self ++ endpoint) kw = Return r ->
  200 <= status_code r < 300 ->
  text r <> EmptyString ->
  json_loads env (text r) = Malformed msg ->
  request env self method endpoint kw tr
  = (Raise (JSONDecodeError msg (text r)),
     (tr ++ Sent (session self) method (base_url self ++ endpoint) kw
         :: Decoded (text r)
         :: if json_is_request_exception env
            then [Printed (failure_line endpoint msg)] else [])%list)
  /\ is_HTTPError (JSONDecodeError msg (text r)) = false
  /\ exn_status_code (JSONDecodeError msg (text r)) = None
  /\ exn_str (JSONDecodeError msg (text r)) = msg.
Proof.
  intros Ht Hs Hne Hj. repeat split.
  rewrite (request_passing_status env self method endpoint kw tr r Ht) by lia.
  cbv zeta. apply String.eqb_neq in Hne. rewrite Hne, Hj.
  now rewrite <- app_assoc.
Qed.

(** C8.  Each wrapper is [request] with the method fixed and its argument
    forwarded: [get] forwards [params], [post] and [put] forward the data as
    the [json] argument, [delete] forwards nothing.  The request that
    reaches the session has a body for [post] and [put] only. *)
Theorem wrappers_forward_to_request (self : APIClient) (endpoint : string)
    (params data : value num) :
  get env self endpoint params = request env self "GET" endpoint [("params", params)]
  /\ post env self endpoint data = request env self "POST" endpoint [("json", data)]
  /\ put env self endpoint data = request env self "PUT" endpoint [("json", data)]
  /\ delete env self endpoint = request env self "DELETE" endpoint []
  /\ forall tr : list (Event num),
       let url := (base_url self ++ endpoint)%string in
       requests_sent (snd (get env self endpoint params tr))
       = (requests_sent tr ++ [("GET", url, Some params, None)])%list
       /\ requests_sent (snd (post env self endpoint data tr))
          = (requests_sent tr ++ [("POST", url, None, Some data)])%list
       /\ requests_sent (snd (put env self endpoint data tr))
          = (requests_sent tr ++ [("PUT", url, None, Some data)])%list
       /\ requests_sent (snd (delete env self endpoint tr))
          = (requests_sent tr ++ [("DELETE", url, None, None)])%list.
Proof.
  repeat split; unfold get, post, put, delete; now rewrite request_sends_once.
Qed.

End ClientClaims.

(** ** The claims on the example server *)

Section ClientExamples.

Import Example.

(** C3 on [/products]: status 200, body [{"products": []}]. *)
Lemma request_returns_parsed_body_witness :
  request env client "GET" "/products" [] []
  = (Return (VDict [("products", VList [])]),
     [sent "GET" "/products"; Decoded products_body]).
Proof.
  apply (request_returns_parsed_body env client "GET" "/products" [] []
           (respond 200 "OK" "/products" products_body)).
  - reflexivity.
  - simpl. lia.
  - vm_compute. discriminate.
  - reflexivity.
Defined.

(** C4 on [/empty]: status 204, no body. *)
Lemma request_empty_body_witness :
  request env client "DELETE" "/empty" [] []
  = (Return (VDict []), [sent "DELETE" "/empty"])
  /\ VDict [] <> @VNone Z.
Proof.
  apply (request_empty_body_returns_empty_dict env client "DELETE" "/empty" [] []
           (respond 204 "No Content" "/empty" EmptyString)).
  - reflexivity.
  - simpl. lia.
  - reflexivity.
Defined.

(** C5 on [/down]: the connection is refused. *)
Lemma request_transport_failure_witness :
  request env client "GET" "/down" [] []
  = (Raise (RequestException "ConnectionError" "Connection refused"),
     [sent "GET" "/down";
      Printed "API Request failed for /down: Connection refused"])
  /\ decoded_docs (snd (request env client "GET" "/down" [] [])) = []
  /\ requests_sent (snd (request env client "GET" "/down" [] []))
     = [("GET", "http://localhost:3002/api/down", None, None)].
Proof.
  apply (request_transport_failure env client "GET" "/down" [] []
           "ConnectionError" "Connection refused").
  reflexivity.
Defined.

(** C1 on [/missing]: status 404, body [{"message": "Not found"}]. *)
Lemma request_error_logs_message_field_witness :
  request env client "GET" "/missing" [] []
  = (Raise (HTTPError
              "404 Client Error: Not Found for url: http://localhost:3002/api/missing"
              (respond 404 "Not Found" "/missing" not_found_body)),
     [sent "GET" "/missing"; Decoded not_found_body;
      Printed "API Request failed for /missing: Not found"])
  /\ exn_status_code
       (HTTPError
          "404 Client Error: Not Found for url: http://localhost:3002/api/missing"
          (respond 404 "Not Found" "/missing" not_found_body)) = Some 404
  /\ exn_str
       (HTTPError
          "404 Client Error: Not Found for url: http://localhost:3002/api/missing"
          (respond 404 "Not Found" "/missing" not_found_body))
     = "404 Client Error: Not Found for url: http://localhost:3002/api/missing".
Proof.
  apply (request_error_logs_message_field env client "GET" "/missing" [] []
           (respond 404 "Not Found" "/missing" not_found_body)
           [("message", VStr "Not found")] (VStr "Not found")).
  - reflexivity.
  - simpl. lia.
  - reflexivity.
  - reflexivity.
Defined.

(** C1 as the spec words it fails on [/missing]: the error that reaches the
    caller has the library's status line as its message, not the value of
    the ["message"] entry, which is only printed.  It fails on [/moved] too:
    a 301 answer with the same body is no error at all, the body is
    returned. *)
Lemma not_found_message_is_only_printed :
  (exists e,
     fst (request env client "GET" "/missing" [] []) = Raise e
     /\ is_HTTPError e = true
     /\ exn_status_code e = Some 404
     /\ exn_str e
        = "404 Client Error: Not Found for url: http://localhost:3002/api/missing"
     /\ exn_str e <> "Not found"
     /\ printed_lines (snd (request env client "GET" "/missing" [] []))
        = ["API Request failed for /missing: Not found"])
  /\ (transport env (session client) "GET" (base_url client ++ "/moved") []
      = Return (respond 301 "Moved Permanently" "/moved" not_found_body)
      /\ request env client "GET" "/moved" [] []
         = (Return (VDict [("message", VStr "Not found")]),
            [sent "GET" "/moved"; Decoded not_found_body])).
Proof.
  split.
  - eexists. repeat split; try reflexivity. vm_compute. discriminate.
  - split; reflexivity.
Qed.

(** C2 on [/broken]: status 500, empty body. *)
Lemma request_error_logs_synthesized_message_witness :
  request env client "GET" "/broken" [] []
  = (Raise (HTTPError
              "500 Server Error: Internal Server Error for url: http://localhost:3002/api/broken"
              (respond 500 "Internal Server Error" "/broken" EmptyString)),
     [sent "GET" "/broken"; Decoded EmptyString;
      Printed "API Request failed for /broken: HTTP 500: Internal Server Error"])
  /\ exn_str
       (HTTPError
          "500 Server Error: Internal Server Error for url: http://localhost:3002/api/broken"
          (respond 500 "Internal Server Error" "/broken" EmptyString))
     = "500 Server Error: Internal Server Error for url: http://localhost:3002/api/broken".
Proof.
  apply (request_error_logs_synthesized_message env client "GET" "/broken" [] []
           (respond 500 "Internal Server Error" "/broken" EmptyString)).
  - reflexivity.
  - simpl. lia.
  - exact I.
Defined.

(** C2 as the spec words it fails on [/broken]: the synthesized message is
    printed, but the message of the error that reaches the caller is the
    library's status line.  On [/cached], a 304 answer without a body, no
    error is raised and nothing is printed. *)
Lemma synthesized_message_is_only_printed :
  (exists e,
     fst (request env client "GET" "/broken" [] []) = Raise e
     /\ is_HTTPError e = true
     /\ exn_str e
        = "500 Server Error: Internal Server Error for url: http://localhost:3002/api/broken"
     /\ exn_str e <> "HTTP 500: Internal Server Error"
     /\ printed_lines (snd (request env client "GET" "/broken" [] []))
        = ["API Request failed for /broken: HTTP 500: Internal Server Error"])
  /\ (transport env (session client) "GET" (base_url client ++ "/cached") []
      = Return (respond 304 "Not Modified" "/cached" EmptyString)
      /\ request env client "GET" "/cached" [] []
         = (Return (VDict []), [sent "GET" "/cached"])).
Proof.
  split.
  - eexists. repeat split; try reflexivity. vm_compute. discriminate.
  - split; reflexivity.
Qed.

(** C6 on [/down] (transport) and on [/missing] (status 404). *)
Lemma request_failure_logged_then_raised_witness :
  (exists pre,
     request env client "GET" "/down" [] []
     = (Raise (RequestException "ConnectionError" "Connection refused"),
        ([] ++ pre
            ++ [Printed ("API Request failed for " ++ "/down" ++ ": "
                         ++ "Connection refused")])%list))
  /\ (exists pre,
        request env client "GET" "/missing" [] []
        = (Raise (HTTPError
                    (http_error_msg (respond 404 "Not Found" "/missing" not_found_body))
                    (respond 404 "Not Found" "/missing" not_found_body)),
           ([] ++ pre
               ++ [Printed ("API Request failed for " ++ "/missing" ++ ": "
                            ++ "Not found")])%list)).
Proof.
  split.
  - apply (request_failure_logged_then_raised env client "GET" "/down" [] []).
    apply transport_failure. reflexivity.
  - apply (request_failure_logged_then_raised env client "GET" "/missing" [] []
             (HTTPError
                (http_error_msg (respond 404 "Not Found" "/missing" not_found_body))
                (respond 404 "Not Found" "/missing" not_found_body))
             (format env
                (error_message env (respond 404 "Not Found" "/missing" not_found_body)))).
    apply status_failure; [reflexivity | simpl; lia].
Defined.

(** C6 as the spec words it fails on a status that is neither 2xx nor an
    error status for [raise_for_status]: the 304 answer of [/cached] ends in
    the empty dict and the 301 answer of [/moved] in its body, and nothing is
    printed for either. *)
Lemma redirect_status_is_no_failure :
  status_code (respond 304 "Not Modified" "/cached" EmptyString) = 304
  /\ transport env (session client) "GET" (base_url client ++ "/cached") []
     = Return (respond 304 "Not Modified" "/cached" EmptyString)
  /\ fst (request env client "GET" "/cached" [] []) = Return (VDict [])
  /\ printed_lines (snd (request env client "GET" "/cached" [] [])) = []
  /\ transport env (session client) "GET" (base_url client ++ "/moved") []
     = Return (respond 301 "Moved Permanently" "/moved" not_found_body)
  /\ fst (request env client "GET" "/moved" [] [])
     = Return (VDict [("message", VStr "Not found")])
  /\ printed_lines (snd (request env client "GET" "/moved" [] [])) = [].
Proof. repeat split. Qed.

(** C7 on [/garbled]: status 200, body [<html>]. *)
Lemma request_decode_failure_propagates_witness :
  request env client "GET" "/garbled" [] []
  = (Raise (JSONDecodeError "Expecting value: line 1 column 1 (char 0)" "<html>"),
     [sent "GET" "/garbled"; Decoded "<html>";
      Printed "API Request failed for /garbled: Expecting value: line 1 column 1 (char 0)"])
  /\ is_HTTPError (JSONDecodeError "Expecting value: line 1 column 1 (char 0)" "<html>")
     = false
  /\ exn_status_code
       (JSONDecodeError "Expecting value: line 1 column 1 (char 0)" "<html>") = None
  /\ exn_str (JSONDecodeError "Expecting value: line 1 column 1 (char 0)" "<html>")
     = "Expecting value: line 1 column 1 (char 0)".
Proof.
  apply (request_decode_failure_propagates env client "GET" "/garbled" [] []
           (respond 200 "OK" "/garbled" "<html>")
           "Expecting value: line 1 column 1 (char 0)").
  - reflexivity.
  - simpl. lia.
  - discriminate.
  - reflexivity.
Defined.

(** C7 as the spec words it fails on [/garbled]: what reaches the caller is
    the decoder's exception with the decoder's message, no [HTTPError]; and
    with a library older than 2.27 it is not even printed. *)
Lemma decode_failure_is_no_http_error :
  (exists e,
     fst (request env client "GET" "/garbled" [] []) = Raise e
     /\ is_HTTPError e = false
     /\ exn_status_code e = None
     /\ exn_str e = "Expecting value: line 1 column 1 (char 0)")
  /\ (exists e,
        fst (request old_env client "GET" "/garbled" [] []) = Raise e
        /\ is_HTTPError e = false
        /\ printed_lines (snd (request old_env client "GET" "/garbled" [] [])) = []).
Proof. split; eexists; repeat split. Qed.

End ClientExamples.

(** * The claim about [PricingCalculator.calculate_order_price] *)

Section PricingClaims.

Import Pricing.

Context {num : Type} `{PyNumber num} (api : PricingApi num).

(** The comparison of the loop is true exactly for the tiers that satisfy
    it, and false exactly for those that fail it; it raises for the others. *)
Lemma tier_applies_true (qty : num) (tier : dict num) :
  tier_applies qty tier = Return true <-> accepts qty tier = true.
Proof.
  unfold tier_applies, accepts, getitem.
  destruct (dict_get "minQuantity" tier) as [lo|]; cbn [and_then].
  - destruct (leb lo qty); cbn [andb].
    + destruct (dict_get "maxQuantity" tier) as [hi|]; cbn [and_then].
      * split; [intros Heq; now injection Heq | now intros ->].
      * split; discriminate.
    + destruct (dict_get "maxQuantity" tier); split; discriminate.
  - split; discriminate.
Qed.

Lemma tier_applies_false (qty : num) (tier : dict num) :
  tier_applies qty tier = Return false <-> rejects qty tier = true.
Proof.
  unfold tier_applies, rejects, getitem.
  destruct (dict_get "minQuantity" tier) as [lo|]; cbn [and_then].
  - destruct (leb lo qty); cbn [negb orb].
    + destruct (dict_get "maxQuantity" tier) as [hi|]; cbn [and_then].
      * destruct (leb qty hi); cbn [negb]; split; easy.
      * split; discriminate.
    + split; reflexivity.
  - split; discriminate.
Qed.

Lemma find_applicable_tier_rejected (qty : num) (before rest : list (dict num)) :
  Forall (fun t => rejects qty t = true) before ->
  find_applicable_tier qty (before ++ rest) = find_applicable_tier qty rest.
Proof.
  induction 1 as [|t before Ht _ IH]; [reflexivity|].
  cbn [app find_applicable_tier].
  apply tier_applies_false in Ht. rewrite Ht. exact IH.
Qed.

(** The loop returns [a] exactly when [a] is the first tier that satisfies
    the comparison, the tiers before it failing it. *)
Lemma find_applicable_tier_first (qty : num) (tiers : list (dict num))
    (a : option (dict num)) :
  find_applicable_tier qty tiers = Return a <-> FirstMatch qty tiers a.
Proof.
  split.
  - revert a. induction tiers as [|tier rest IH]; intros a; cbn [find_applicable_tier].
    + intros Heq. injection Heq as <-. apply first_match_none. constructor.
    + destruct (tier_applies qty tier) as [[|]|e] eqn:Ht; cbn [and_then].
      * intros Heq. injection Heq as <-.
        apply (first_match_at qty [] tier rest); [constructor|].
        now apply tier_applies_true.
      * intros Hrest. apply tier_applies_false in Ht.
        destruct (IH a Hrest) as [before t after Hbefore Hin | ts Hnone].
        -- apply (first_match_at qty (tier :: before) t after); [|exact Hin].
           now constructor.
        -- apply first_match_none. now constructor.
      * discriminate.
  - intros [before tier after Hbefore Hin | ts Hnone].
    + rewrite (find_applicable_tier_rejected qty before (tier :: after) Hbefore).
      cbn [find_applicable_tier].
      apply tier_applies_true in Hin. now rewrite Hin.
    + rewrite <- (app_nil_r ts).
      now rewrite (find_applicable_tier_rejected qty ts [] Hnone).
Qed.

Lemma first_match_accepts (qty : num) (tiers : list (dict num)) (tier : dict num) :
  FirstMatch qty tiers (Some tier) -> accepts qty tier = true.
Proof.
  intros Hfirst. apply find_applicable_tier_first in Hfirst.
  revert Hfirst. induction tiers as [|t rest IH]; cbn [find_applicable_tier];
    [discriminate|].
  destruct (tier_applies qty t) as [[|]|e] eqn:Ht; cbn [and_then].
  - intros Heq. injection Heq as <-. now apply tier_applies_true.
  - exact IH.
  - discriminate.
Qed.

(** The price read off the applicable tier: its [price], and [0] when there
    is no applicable tier; a tier that satisfies the comparison has entries
    and is truthy. *)
Lemma tier_price_first (qty : num) (tiers : list (dict num))
    (a : option (dict num)) (tier_cost : num) :
  FirstMatch qty tiers a ->
  tier_price a = Return tier_cost
  <-> match a with
      | Some tier => dict_get "price" tier = Some tier_cost
      | None => tier_cost = zero
      end.
Proof.
  intros Hfirst. destruct a as [tier|].
  - apply first_match_accepts in Hfirst.
    destruct tier as [|b t]; [discriminate Hfirst|].
    unfold tier_price, getitem. destruct (dict_get "price" (b :: t)) as [v|].
    + split; intros Heq; injection Heq as <-; reflexivity.
    + split; discriminate.
  - cbn [tier_price]. split; [intros Heq; now injection Heq | now intros ->].
Qed.

Lemma avg_cost_mean (base_costs : dict num) :
  avg_cost base_costs = mean (map snd base_costs).
Proof.
  unfold avg_cost, mean, sum_values. destruct base_costs; [reflexivity|].
  cbn [map length]. now rewrite length_map.
Qed.

(** The decoration cost per item: the [cost] that the embroidery endpoint
    answers for item type Shirt when the decoration type is Embroidery and
    the stitch count is given and not zero, the tier's cost otherwise. *)
Lemma decoration_cost_spec (decoration_type : string) (stitch_count : option Z)
    (tier_cost decoration_cost : num) :
  (if String.eqb decoration_type "Embroidery" && truthy_count stitch_count then
     match stitch_count with
     | Some n =>
         let* embroidery_result := get_embroidery_cost api "Shirt" n in
         getitem embroidery_result "cost"
     | None => Return tier_cost
     end
   else Return tier_cost) = Return decoration_cost
  <-> (if embroidery_with_count decoration_type stitch_count
       then exists n answer,
              stitch_count = Some n
              /\ get_embroidery_cost api "Shirt" n = Return answer
              /\ dict_get "cost" answer = Some decoration_cost
       else decoration_cost = tier_cost).
Proof.
  unfold embroidery_with_count, truthy_count.
  destruct (String.eqb decoration_type "Embroidery"); cbn [andb].
  - destruct stitch_count as [n|].
    + destruct (negb (n =? 0)).
      * split.
        -- destruct (get_embroidery_cost api "Shirt" n) as [answer|e] eqn:Hget;
             cbn [and_then]; [|discriminate].
           unfold getitem. destruct (dict_get "cost" answer) as [v|] eqn:Hcost;
             [|discriminate].
           intros Heq. injection Heq as <-. now exists n, answer.
        -- intros (n' & answer & Hn & Hget & Hcost). injection Hn as <-.
           rewrite Hget. cbn [and_then]. unfold getitem. now rewrite Hcost.
      * split; [intros Heq; now injection Heq | now intros ->].
    + split; [intros Heq; now injection Heq | now intros ->].
  - split; [intros Heq; now injection Heq | now intros ->].
Qed.

(** C10.  For every quantity, every answer of the three endpoints and every
    list of pricing tiers among them, [calculate_order_price] returns a
    result exactly when the following hold, and the result is then the one
    described: the two endpoints for the base costs and the tiers answer;
    the applicable tier is the first tier of the list, in list order, with
    [minQuantity <= quantity <= maxQuantity], every tier before it failing
    the comparison, and there is none when every tier fails it; the tier's
    cost is the applicable tier's [price], and [0] without an applicable
    tier; the decoration cost per item is the [cost] of the embroidery
    endpoint when the decoration type is Embroidery and the stitch count is
    given and not zero, and the tier's cost otherwise; the base cost per item
    is the mean of the base costs per size, [0] when there are none; and the
    total cost is the base cost plus the decoration cost, times the quantity,
    in Python's arithmetic.  In every other case the call raises: an endpoint
    fails, a tier that the loop reaches lacks a bound it reads, the
    applicable tier has no [price], or the arithmetic raises. *)
Theorem calculate_order_price_spec (style_number decoration_type : string)
    (qty : num) (stitch_count : option Z) (r : OrderPrice num) :
  calculate_order_price api style_number decoration_type qty stitch_count = Return r
  <-> exists (base_costs : dict num) (tiers : list (dict num))
             (applicable : option (dict num)) (tier_cost per_item : num),
        get_base_item_costs api style_number = Return base_costs
        /\ get_pricing_tiers api decoration_type = Return tiers
        /\ FirstMatch qty tiers applicable
        /\ match applicable with
           | Some tier => dict_get "price" tier = Some tier_cost
           | None => tier_cost = zero
           end
        /\ (if embroidery_with_count decoration_type stitch_count
            then exists n answer,
                   stitch_count = Some n
                   /\ get_embroidery_cost api "Shirt" n = Return answer
                   /\ dict_get "cost" answer = Some (decorationCostPerItem r)
            else decorationCostPerItem r = tier_cost)
        /\ mean (map snd base_costs) = Return (baseCostPerItem r)
        /\ quantity r = qty
        /\ add (baseCostPerItem r) (decorationCostPerItem r) = Return per_item
        /\ mul per_item qty = Return (totalCost r).
Proof.
  unfold calculate_order_price. split.
  - destruct (get_base_item_costs api style_number) as [base_costs|e] eqn:Hbase;
      cbn [and_then]; [|discriminate].
    destruct (get_pricing_tiers api decoration_type) as [tiers|e] eqn:Htiers;
      cbn [and_then]; [|discriminate].
    destruct (find_applicable_tier qty tiers) as [a|e] eqn:Hfind;
      cbn [and_then]; [|discriminate].
    apply find_applicable_tier_first in Hfind.
    destruct (tier_price a) as [tier_cost|e] eqn:Hprice;
      cbn [and_then]; [|discriminate].
    apply (tier_price_first qty tiers a tier_cost Hfind) in Hprice.
    match goal with
    | |- and_then ?d _ = _ -> _ => destruct d as [decoration_cost|e] eqn:Hdeco
    end; cbn [and_then]; [|discriminate].
    apply decoration_cost_spec in Hdeco.
    rewrite avg_cost_mean.
    destruct (mean (map snd base_costs)) as [avg|e] eqn:Hmean;
      cbn [and_then]; [|discriminate].
    destruct (add avg decoration_cost) as [per_item|e] eqn:Hadd;
      cbn [and_then]; [|discriminate].
    destruct (mul per_item qty) as [total|e] eqn:Hmul;
      cbn [and_then]; [|discriminate].
    intros Heq. injection Heq as <-.
    cbn [baseCostPerItem decorationCostPerItem quantity totalCost].
    exists base_costs, tiers, a, tier_cost, per_item.
    repeat split; assumption.
  - intros (base_costs & tiers & a & tier_cost & per_item
            & Hbase & Htiers & Hfind & Hprice & Hdeco & Hmean & Hqty & Hadd & Hmul).
    destruct r as [avg decoration_cost q total].
    cbn [baseCostPerItem decorationCostPerItem quantity totalCost] in *.
    subst q.
    rewrite Hbase, Htiers. cbn [and_then].
    apply (tier_price_first qty tiers a tier_cost Hfind) in Hprice.
    apply find_applicable_tier_first in Hfind.
    rewrite Hfind. cbn [and_then]. rewrite Hprice. cbn [and_then].
    apply decoration_cost_spec in Hdeco. rewrite Hdeco. cbn [and_then].
    rewrite avg_cost_mean, Hmean. cbn [and_then].
    rewrite Hadd. cbn [and_then]. now rewrite Hmul.
Qed.

End PricingClaims.

Section PricingExample.

Import Number Example.

(** C10 on the example price list, for an embroidery order of 50 pieces with
    5000 stitches: the first tier, 1 to 23, fails the comparison, 50 is in
    the range of the second and of the third tier and the second is the
    applicable one, and the open-ended tier behind them is not read; the
    decoration cost is the 7.25 of the embroidery endpoint, the base cost
    the mean 11.25 of 10 and 12.5, and the total 18.5 times 50. *)
Lemma calculate_order_price_spec_witness :
  Pricing.calculate_order_price api "PC61" "Embroidery" (PyInt 50) (Some 5000)
  = Return {| Pricing.baseCostPerItem := PyFloat (float_literal 1125 2);
              Pricing.decorationCostPerItem := PyFloat (float_literal 725 2);
              Pricing.quantity := PyInt 50;
              Pricing.totalCost := PyFloat (float_literal 925 0) |}.
Proof.
  apply (proj2 (calculate_order_price_spec api "PC61" "Embroidery" (PyInt 50)
                  (Some 5000) _)).
  exists base_costs, tiers,
    (Some [("minQuantity", PyInt 24); ("maxQuantity", PyInt 71);
           ("price", PyFloat (float_literal 65 1))]),
    (PyFloat (float_literal 65 1)), (PyFloat (float_literal 185 1)).
  split; [reflexivity|]. split; [reflexivity|]. split.
  - apply (Pricing.first_match_at (PyInt 50)
             [[("minQuantity", PyInt 1); ("maxQuantity", PyInt 23);
               ("price", PyInt 8)]]).
    + repeat constructor.
    + reflexivity.
  - split; [reflexivity|]. split.
    + exists 5000, [("cost", PyFloat (float_literal 725 2))].
      repeat split; reflexivity.
    + repeat split; reflexivity.
Defined.

(** The same order printed instead of embroidered: the second tier's price
    of 6.5 is the decoration cost, and 17.75 times 50 the total. *)
Example dtg_order_of_50 :
  Pricing.calculate_order_price api "PC61" "DTG" (PyInt 50) None
  = Return {| Pricing.baseCostPerItem := PyFloat (float_literal 1125 2);
              Pricing.decorationCostPerItem := PyFloat (float_literal 65 1);
              Pricing.quantity := PyInt 50;
              Pricing.totalCost := PyFloat (float_literal 8875 1) |}.
Proof. vm_compute. reflexivity. Qed.

(** No tier holds a quantity of 0, and every tier fails the comparison at
    its lower bound: the decoration cost is the int [0], and the total the
    float [0.0]. *)
Example dtg_order_of_0 :
  Pricing.calculate_order_price api "PC61" "DTG" (PyInt 0) None
  = Return {| Pricing.baseCostPerItem := PyFloat (float_literal 1125 2);
              Pricing.decorationCostPerItem := PyInt 0;
              Pricing.quantity := PyInt 0;
              Pricing.totalCost := PyFloat (float_literal 0 0) |}.
Proof. vm_compute. reflexivity. Qed.

(** 500 pieces reach the open-ended tier, whose lower bound holds: reading
    its upper bound raises. *)
Example dtg_order_of_500 :
  Pricing.calculate_order_price api "PC61" "DTG" (PyInt 500) None
  = Raise (BuiltinError "KeyError" "maxQuantity").
Proof. vm_compute. reflexivity. Qed.

(** A stitch count of zero is as good as none: the tier's price stays. *)
Example embroidery_order_without_stitches :
  Pricing.calculate_order_price api "PC61" "Embroidery" (PyInt 50) (Some 0)
  = Pricing.calculate_order_price api "PC61" "Embroidery" (PyInt 50) None.
Proof. reflexivity. Qed.

(** A quantity beyond the range of the floats: the tiers are compared with
    it exactly, the base cost per item is the float 11.25, and the product
    of a float and this int raises. *)
Example order_beyond_the_floats :
  Pricing.calculate_order_price (closed_api (10 ^ 401)) "PC61" "DTG"
    (PyInt (10 ^ 400)) None
  = Raise (BuiltinError "OverflowError" "int too large to convert to float").
Proof. vm_compute. reflexivity. Qed.

(** The mean is a rounded float: three sizes at 1, 2 and 2 give
    1.6666666666666667, the float nearest to 5/3. *)
Example mean_is_rounded :
  Pricing.avg_cost [("S", PyInt 1); ("M", PyInt 2); ("L", PyInt 2)]
  = Return (PyFloat (S754_finite false 7505999378950827 (-52))).
Proof. vm_compute. reflexivity. Qed.

(** Two sizes at 2^53 + 1 each: the sum of the ints is exact and the
    quotient is the float 2^53, not the cost of either size. *)
Example mean_of_equal_costs_is_rounded :
  Pricing.avg_cost [("S", PyInt (2 ^ 53 + 1)); ("M", PyInt (2 ^ 53 + 1))]
  = Return (PyFloat (float_literal (2 ^ 53) 0)).
Proof. vm_compute. reflexivity. Qed.

End PricingExample.

(** * The claim about list-valued query parameters *)

Section UrlFacts.

Import Url.

Lemma string_app_assoc (a b c : string) :
  ((a ++ b) ++ c)%string = (a ++ b ++ c)%string.
Proof. induction a as [|x a IH]; simpl; [reflexivity | now rewrite IH]. Qed.

Lemma lacks_app (c : ascii) (a b : string) :
  lacks c (a ++ b) = lacks c a && lacks c b.
Proof.
  induction a as [|x a IH]; simpl; [reflexivity|].
  rewrite IH. now rewrite andb_assoc.
Qed.

(** The encoding of a byte holds none of the separators of a URL. *)
Lemma quote_char_lacks (c : ascii) :
  lacks "&" (quote_char c) = true
  /\ lacks "=" (quote_char c) = true
  /\ lacks "?" (quote_char c) = true.
Proof.
  destruct c as [[] [] [] [] [] [] [] []]; repeat split; reflexivity.
Qed.

Lemma quote_plus_lacks (s : string) :
  lacks "&" (quote_plus s) = true
  /\ lacks "=" (quote_plus s) = true
  /\ lacks "?" (quote_plus s) = true.
Proof.
  induction s as [|c s (Ha & He & Hq)]; simpl; [repeat split|].
  destruct (quote_char_lacks c) as (Ha' & He' & Hq').
  rewrite !lacks_app, Ha, He, Hq, Ha', He', Hq'. repeat split.
Qed.

(** Decoding undoes the encoding of a byte, whatever follows. *)
Lemma unquote_quote_char (c : ascii) (s : string) :
  unquote_plus (quote_char c ++ s) = String c (unquote_plus s).
Proof.
  destruct c as [[] [] [] [] [] [] [] []]; reflexivity.
Qed.

Lemma unquote_quote_plus (s : string) : unquote_plus (quote_plus s) = s.
Proof.
  induction s as [|c s IH]; simpl; [reflexivity|].
  now rewrite unquote_quote_char, IH.
Qed.

Lemma cut_at_app (sep : ascii) (a b : string) :
  lacks sep a = true -> cut_at sep (a ++ String sep b) = (a, b).
Proof.
  induction a as [|x a IH]; simpl; intros Ha.
  - now rewrite Ascii.eqb_refl.
  - apply andb_prop in Ha as [Hx Ha].
    apply negb_true_iff in Hx. rewrite Hx, (IH Ha). reflexivity.
Qed.

Lemma cut_at_lacks (sep : ascii) (a : string) :
  lacks sep a = true -> cut_at sep a = (a, EmptyString).
Proof.
  induction a as [|x a IH]; simpl; intros Ha; [reflexivity|].
  apply andb_prop in Ha as [Hx Ha].
  apply negb_true_iff in Hx. rewrite Hx, (IH Ha). reflexivity.
Qed.

Lemma split_on_lacks (sep : ascii) (a : string) :
  lacks sep a = true -> split_on sep a = [a].
Proof.
  induction a as [|x a IH]; simpl; intros Ha; [reflexivity|].
  apply andb_prop in Ha as [Hx Ha].
  apply negb_true_iff in Hx. rewrite Hx, (IH Ha). reflexivity.
Qed.

Lemma split_on_app (sep : ascii) (a b : string) :
  lacks sep a = true ->
  split_on sep (a ++ String sep b) = a :: split_on sep b.
Proof.
  induction a as [|x a IH]; simpl; intros Ha.
  - now rewrite Ascii.eqb_refl.
  - apply andb_prop in Ha as [Hx Ha].
    apply negb_true_iff in Hx. rewrite Hx, (IH Ha). reflexivity.
Qed.

Lemma split_on_concat (sep : ascii) (piece : string) (pieces : list string) :
  Forall (fun p => lacks sep p = true) (piece :: pieces) ->
  split_on sep (String.concat (String sep EmptyString) (piece :: pieces))
  = piece :: pieces.
Proof.
  revert piece. induction pieces as [|q pieces IH]; intros piece Hall.
  - simpl. apply split_on_lacks. now inversion Hall.
  - inversion Hall as [|? ? Hp Hrest]; subst.
    change (String.concat (String sep EmptyString) (piece :: q :: pieces))
      with (piece ++ String sep (String.concat (String sep EmptyString) (q :: pieces)))%string.
    rewrite (split_on_app sep _ _ Hp). now rewrite (IH q Hrest).
Qed.

Lemma encode_pair_lacks_amp (kv : string * string) :
  lacks "&" (encode_pair kv) = true.
Proof.
  unfold encode_pair.
  destruct (quote_plus_lacks (fst kv)) as (Hk & _ & _).
  destruct (quote_plus_lacks (snd kv)) as (Hv & _ & _).
  rewrite !lacks_app, Hk, Hv. reflexivity.
Qed.

Lemma decode_encode_pair (kv : string * string) :
  (let (k, v) := cut_at "=" (encode_pair kv) in (unquote_plus k, unquote_plus v)) = kv.
Proof.
  destruct kv as [k v]. unfold encode_pair. cbn [fst snd].
  destruct (quote_plus_lacks k) as (_ & Hk & _).
  change (quote_plus k ++ "=" ++ quote_plus v)%string
    with (quote_plus k ++ String "=" (quote_plus v))%string.
  rewrite (cut_at_app "=" _ _ Hk). now rewrite !unquote_quote_plus.
Qed.

(** Reading back the encoded pairs gives the pairs. *)
Lemma parse_qsl_encoded (ps : list (string * string)) :
  parse_qsl (String.concat "&" (map encode_pair ps)) = ps.
Proof.
  destruct ps as [|p ps]; [reflexivity|].
  assert (Hsplit : split_on "&" (String.concat "&" (map encode_pair (p :: ps)))
                   = map encode_pair (p :: ps)).
  { cbn [map]. apply split_on_concat.
    change (encode_pair p :: map encode_pair ps) with (map encode_pair (p :: ps)).
    apply Forall_map, Forall_forall. intros kv _. apply encode_pair_lacks_amp. }
  unfold parse_qsl. rewrite Hsplit.
  destruct (String.concat "&" (map encode_pair (p :: ps))) eqn:Hq.
  - exfalso. cbn [split_on map] in Hsplit. injection Hsplit as Hp _.
    unfold encode_pair in Hp.
    destruct (quote_plus (fst p)); simpl in Hp; discriminate Hp.
  - rewrite map_map. rewrite <- (map_id (p :: ps)) at 2.
    apply map_ext. intros kv. apply decode_encode_pair.
Qed.

(** The query string of the built URL is the encoded mapping. *)
Lemma query_of_built_url (base endpoint : string) (m : query_params) :
  lacks "?" (base ++ endpoint) = true ->
  query_of_url (build_url base endpoint m) = urlencode m.
Proof.
  intros Hpath. unfold query_of_url, build_url.
  destruct (urlencode m) as [|c q] eqn:Hq.
  - now rewrite (cut_at_lacks "?" _ Hpath).
  - change (base ++ endpoint ++ "?" ++ String c q)%string
      with (base ++ endpoint ++ String "?" (String c q))%string.
    rewrite <- string_app_assoc. now rewrite (cut_at_app "?" _ _ Hpath).
Qed.

Lemma pairs_of_app (a b : query_params) :
  pairs_of (a ++ b)%list = (pairs_of a ++ pairs_of b)%list.
Proof. unfold pairs_of. apply flat_map_app. Qed.

End UrlFacts.

Section UrlClaims.

Import Url.

(** C9, as far as it holds.  A list-valued entry [k = vs] of the mapping is
    serialized as one [k=v] pair per element of [vs], in order, between the
    pairs of the entries before it and after it; and decoding the query
    string of the built URL gives back exactly these key/value pairs.  The
    path is taken to hold no question mark of its own. *)
Theorem list_entry_repeats_its_key (base endpoint : string)
    (before : query_params) (k : string) (vs : list string) (after : query_params) :
  lacks "?" (base ++ endpoint) = true ->
  let m := (before ++ (k, Values vs) :: after)%list in
  let pairs := (pairs_of before ++ map (pair k) vs ++ pairs_of after)%list in
  urlencode m = String.concat "&" (map encode_pair pairs)
  /\ parse_qsl (query_of_url (build_url base endpoint m)) = pairs.
Proof.
  intros Hpath m pairs.
  assert (Hpairs : pairs_of m = pairs).
  { unfold m, pairs. rewrite pairs_of_app. unfold pairs_of at 2.
    cbn [flat_map fst snd]. reflexivity. }
  split.
  - unfold urlencode. now rewrite Hpairs.
  - rewrite (query_of_built_url base endpoint m Hpath).
    unfold urlencode. rewrite parse_qsl_encoded. exact Hpairs.
Qed.

(** C9 on the search [q=polo, category=[A, B], limit=10]. *)
Lemma list_entry_repeats_its_key_witness :
  urlencode [("q", Scalar "polo"); ("category", Values ["A"; "B"]);
             ("limit", Scalar "10")]
  = "q=polo&category=A&category=B&limit=10"
  /\ parse_qsl
       (query_of_url
          (build_url API_BASE_URL "/products/search"
             [("q", Scalar "polo"); ("category", Values ["A"; "B"]);
              ("limit", Scalar "10")]))
     = [("q", "polo"); ("category", "A"); ("category", "B"); ("limit", "10")].
Proof.
  apply (list_entry_repeats_its_key API_BASE_URL "/products/search"
           [("q", Scalar "polo")] "category" ["A"; "B"] [("limit", Scalar "10")]).
  reflexivity.
Defined.

(** C9 as the spec words it fails: the mapping itself does not come back.
    A scalar entry and a list of one element are serialized alike, so two
    different mappings, each with a list-valued entry, give the same URL, and
    no decoding of the URL can return both. *)
Lemma scalar_and_singleton_share_a_url :
  has_list_entry [("category", Values ["A"; "B"]); ("q", Scalar "polo")] = true
  /\ has_list_entry [("category", Values ["A"; "B"]); ("q", Values ["polo"])] = true
  /\ [("category", Values ["A"; "B"]); ("q", Scalar "polo")]
     <> [("category", Values ["A"; "B"]); ("q", Values ["polo"])]
  /\ build_url API_BASE_URL "/products/search"
       [("category", Values ["A"; "B"]); ("q", Scalar "polo")]
     = build_url API_BASE_URL "/products/search"
         [("category", Values ["A"; "B"]); ("q", Values ["polo"])]
  /\ forall decode : string -> query_params,
       ~ (decode (build_url API_BASE_URL "/products/search"
                    [("category", Values ["A"; "B"]); ("q", Scalar "polo")])
          = [("category", Values ["A"; "B"]); ("q", Scalar "polo")]
          /\ decode (build_url API_BASE_URL "/products/search"
                       [("category", Values ["A"; "B"]); ("q", Values ["polo"])])
             = [("category", Values ["A"; "B"]); ("q", Values ["polo"])]).
Proof.
  repeat split; try discriminate.
  intros decode [H1 H2].
  change (build_url API_BASE_URL "/products/search"
            [("category", Values ["A"; "B"]); ("q", Values ["polo"])])
    with (build_url API_BASE_URL "/products/search"
            [("category", Values ["A"; "B"]); ("q", Scalar "polo")]) in H2.
  rewrite H1 in H2. discriminate H2.
Qed.

(** The multi-category search of [product_search_examples]. *)
Example multi_category_search_url :
  search_products_url EmptyString
    [("category", Values ["T-Shirts"; "Polos"]); ("sort", Scalar "price_asc");
     ("limit", Scalar "10")]
  = (API_BASE_URL
     ++ "/products/search?q=&category=T-Shirts&category=Polos&sort=price_asc&limit=10")%string.
Proof. reflexivity. Qed.

End UrlClaims.

(** * Beyond the claims: the rest of the module *)

(** ** Python dicts *)

Section DictFacts.

Context {A : Type}.

Lemma dict_get_set_same (k : string) (v : A) (d : list (string * A)) :
  dict_get k (dict_set k v d) = Some v.
Proof.
  induction d as [|[k' v'] d IH]; simpl.
  - now rewrite String.eqb_refl.
  - destruct (String.eqb k k') eqn:E; simpl; rewrite E; [reflexivity | exact IH].
Qed.

Lemma dict_get_set_other (k k' : string) (v : A) (d : list (string * A)) :
  k <> k' -> dict_get k' (dict_set k v d) = dict_get k' d.
Proof.
  intros Hne. induction d as [|[k0 v0] d IH]; simpl.
  - apply not_eq_sym, String.eqb_neq in Hne. now rewrite Hne.
  - destruct (String.eqb k k0) eqn:E; simpl.
    + apply String.eqb_eq in E. subst k0.
      apply not_eq_sym, String.eqb_neq in Hne. now rewrite Hne.
    + now rewrite IH.
Qed.

Lemma dict_mem_set_other (k k' : string) (v : A) (d : list (string * A)) :
  k <> k' -> dict_mem k' (dict_set k v d) = dict_mem k' d.
Proof. intros Hne. unfold dict_mem. now rewrite dict_get_set_other. Qed.

Lemma dict_get_absent (k : string) (d : list (string * A)) :
  ~ In k (map fst d) -> dict_get k d = None.
Proof.
  induction d as [|[k' v'] d IH]; simpl; intros Hk; [reflexivity|].
  destruct (String.eqb k k') eqn:E.
  - apply String.eqb_eq in E. subst. exfalso. apply Hk. now left.
  - apply IH. intros Hin. apply Hk. now right.
Qed.

Lemma keys_dict_set (k : string) (v : A) (d : list (string * A)) :
  map fst (dict_set k v d)
  = if dict_mem k d then map fst d else (map fst d ++ [k])%list.
Proof.
  unfold dict_mem. induction d as [|[k' v'] d IH]; simpl; [reflexivity|].
  destruct (String.eqb k k') eqn:E; simpl; [reflexivity|].
  rewrite IH. now destruct (dict_get k d).
Qed.

(** After [d.update(e)], a key of [e] has the value [e] gives it and any
    other key the value it had. *)
Lemma dict_get_update (k : string) (d e : list (string * A)) :
  NoDup (map fst e) ->
  dict_get k (dict_update d e)
  = match dict_get k e with
    | Some v => Some v
    | None => dict_get k d
    end.
Proof.
  unfold dict_update. revert d.
  induction e as [|[k0 v0] e IH]; intros d Hnd; simpl; [reflexivity|].
  inversion Hnd as [|? ? Hnotin Hnd']; subst.
  rewrite (IH _ Hnd'). cbn [fst snd].
  destruct (String.eqb k k0) eqn:E.
  - apply String.eqb_eq in E. subst k0.
    rewrite (dict_get_absent k e Hnotin). apply dict_get_set_same.
  - destruct (dict_get k e); [reflexivity|].
    apply dict_get_set_other. intros ->. now rewrite String.eqb_refl in E.
Qed.

(** After [d.update(e)], the keys of [d] are where they were and the new
    keys follow in the order of [e]. *)
Lemma keys_dict_update (d e : list (string * A)) :
  NoDup (map fst e) ->
  map fst (dict_update d e)
  = (map fst d ++ filter (fun k => negb (dict_mem k d)) (map fst e))%list.
Proof.
  unfold dict_update. revert d.
  induction e as [|[k0 v0] e IH]; intros d Hnd; simpl.
  - now rewrite app_nil_r.
  - inversion Hnd as [|? ? Hnotin Hnd']; subst.
    rewrite (IH _ Hnd'). cbn [fst snd]. rewrite keys_dict_set.
    assert (Hsame : filter (fun k => negb (dict_mem k (dict_set k0 v0 d))) (map fst e)
                    = filter (fun k => negb (dict_mem k d)) (map fst e)).
    { apply filter_ext_in. intros k Hk. f_equal. apply dict_mem_set_other.
      intros ->. now apply Hnotin. }
    rewrite Hsame. destruct (dict_mem k0 d); simpl; [reflexivity|].
    now rewrite <- app_assoc.
Qed.

End DictFacts.

(** ** The three lines, and the handler that prints and raises again *)

Section LibraryFacts.

Context {num : Type} (w : World num).

Lemma printed_lines_app (a b : list (Event num)) :
  printed_lines (a ++ b) = (printed_lines a ++ printed_lines b)%list.
Proof. unfold printed_lines. apply flat_map_app. Qed.

Lemma three_lines (s : Session) (method url : string) (kw : kwargs num)
    (tr : list (Event num)) :
  (response <- session_request (env_of w) s method url kw ;;
   call_raise_for_status response ;;;
   response_json (env_of w) response) tr
  = (answer (env_of w) s method url kw,
     (tr ++ answer_events (env_of w) s method url kw)%list).
Proof.
  unfold bind, session_request, call_raise_for_status, response_json, emit,
    answer, answer_events, ret, raise.
  simpl.
  destruct (transport (env_of w) s method url kw) as [r|e]; simpl; [|reflexivity].
  destruct (raise_for_status r); simpl; [reflexivity|].
  destruct (json_loads (env_of w) (text r)); unfold bind; simpl;
    now rewrite <- app_assoc.
Qed.

Lemma requests_sent_answer_events (s : Session) (method url : string)
    (kw : kwargs num) :
  requests_sent (answer_events (env_of w) s method url kw)
  = [(method, url, dict_get "params" kw, dict_get "json" kw)].
Proof.
  unfold answer_events.
  destruct (transport (env_of w) s method url kw) as [r|e]; [|reflexivity].
  destruct (raise_for_status r); reflexivity.
Qed.

Lemma printed_lines_answer_events (s : Session) (method url : string)
    (kw : kwargs num) :
  printed_lines (answer_events (env_of w) s method url kw) = [].
Proof.
  unfold answer_events.
  destruct (transport (env_of w) s method url kw) as [r|e]; [|reflexivity].
  destruct (raise_for_status r); reflexivity.
Qed.

Lemma answer_error_status (s : Session) (method url : string) (kw : kwargs num)
    (r : Response) :
  transport (env_of w) s method url kw = Return r ->
  400 <= status_code r < 600 ->
  answer (env_of w) s method url kw = Raise (HTTPError (http_error_msg r) r)
  /\ answer_events (env_of w) s method url kw = [Sent s method url kw].
Proof.
  intros Ht Hs. unfold answer, answer_events.
  now rewrite Ht, (raise_for_status_raises r Hs).
Qed.

Lemma answer_passing_status (s : Session) (method url : string) (kw : kwargs num)
    (r : Response) :
  transport (env_of w) s method url kw = Return r ->
  status_code r < 400 \/ 600 <= status_code r ->
  answer (env_of w) s method url kw
  = match json_loads (env_of w) (text r) with
    | Parsed v => Return v
    | Malformed msg => Raise (JSONDecodeError msg (text r))
    end
  /\ answer_events (env_of w) s method url kw
     = [Sent s method url kw; Decoded (text r)].
Proof.
  intros Ht Hs. unfold answer, answer_events.
  now rewrite Ht, (raise_for_status_passes r Hs).
Qed.

End LibraryFacts.

(** ** [APIClient.request], whatever the server does *)

Section ClientBeyond.

Context {num : Type} (env : Env num).

(** X1.  [request] prints nothing when it returns a value.  When it raises,
    it has printed exactly one line, the failure line of its endpoint, if
    the exception is of the library's [RequestException] classes, and
    nothing if it is any other exception. *)
Theorem request_prints_only_when_it_raises (self : APIClient)
    (method endpoint : string) (kw : kwargs num) (tr : list (Event num)) :
  match fst (request env self method endpoint kw tr) with
  | Return _ =>
      printed_lines (snd (request env self method endpoint kw tr)) = printed_lines tr
  | Raise e =>
      if is_RequestException (json_is_request_exception env) e then
        exists msg,
          printed_lines (snd (request env self method endpoint kw tr))
          = (printed_lines tr ++ [failure_line endpoint msg])%list
      else
        printed_lines (snd (request env self method endpoint kw tr)) = printed_lines tr
  end.
Proof.
  destruct (transport env (session self) method (base_url self ++ endpoint) kw)
    as [r|e] eqn:Ht.
  - assert (Hcases : 400 <= status_code r < 600
                     \/ (status_code r < 400 \/ 600 <= status_code r)) by lia.
    destruct Hcases as [Hs|Hs].
    + rewrite (request_error_status env self method endpoint kw tr r Ht Hs).
      cbn [fst snd is_RequestException].
      eexists. rewrite printed_lines_app. cbn. reflexivity.
    + rewrite (request_passing_status env self method endpoint kw tr r Ht Hs).
      cbv zeta.
      destruct (String.eqb (text r) EmptyString);
        [|destruct (json_loads env (text r)) as [v|msg]];
        cbn [fst snd is_RequestException].
      * rewrite printed_lines_app. cbn. now rewrite app_nil_r.
      * rewrite !printed_lines_app. cbn. now rewrite !app_nil_r.
      * destruct (json_is_request_exception env);
          [exists msg|]; rewrite !printed_lines_app; cbn;
          now rewrite ?app_nil_r.
  - unfold request, try_except, request_body, bind, session_request, emit.
    simpl. rewrite Ht. simpl.
    destruct e as [m r|cls m|m doc|cls m]; simpl.
    + rewrite extract_error_msg_spec. simpl.
      eexists. rewrite !printed_lines_app. cbn. now rewrite !app_nil_r.
    + exists m. rewrite !printed_lines_app. cbn. now rewrite !app_nil_r.
    + destruct (json_is_request_exception env); simpl;
        [exists m|]; rewrite !printed_lines_app; cbn; now rewrite ?app_nil_r.
    + rewrite printed_lines_app. cbn. now rewrite app_nil_r.
Qed.

(** X2.  Whatever the outcome, one call of [request] hands exactly one
    request to the session, with the method, URL and arguments it was given,
    and hands at most one body to the JSON decoder: nothing is tried a
    second time. *)
Theorem request_never_retries (self : APIClient) (method endpoint : string)
    (kw : kwargs num) (tr : list (Event num)) :
  requests_sent (snd (request env self method endpoint kw tr))
  = (requests_sent tr
     ++ [(method, (base_url self ++ endpoint)%string,
          dict_get "params" kw, dict_get "json" kw)])%list
  /\ exists docs,
       decoded_docs (snd (request env self method endpoint kw tr))
       = (decoded_docs tr ++ docs)%list
       /\ (length docs <= 1)%nat.
Proof.
  split; [apply request_sends_once|].
  destruct (transport env (session self) method (base_url self ++ endpoint) kw)
    as [r|e] eqn:Ht.
  - assert (Hcases : 400 <= status_code r < 600
                     \/ (status_code r < 400 \/ 600 <= status_code r)) by lia.
    destruct Hcases as [Hs|Hs].
    + rewrite (request_error_status env self method endpoint kw tr r Ht Hs).
      exists [text r]. cbn [snd]. rewrite decoded_docs_app. split; [reflexivity|].
      simpl. lia.
    + rewrite (request_passing_status env self method endpoint kw tr r Ht Hs).
      cbv zeta.
      destruct (String.eqb (text r) EmptyString);
        [exists []|exists [text r]];
        [|destruct (json_loads env (text r));
          [|destruct (json_is_request_exception env)]];
        cbn [snd]; rewrite ?decoded_docs_app; cbn; rewrite ?app_nil_r;
        (split; [reflexivity | simpl; lia]).
  - unfold request, try_except, request_body, bind, session_request, emit.
    simpl. rewrite Ht. simpl.
    destruct e as [m r|cls m|m doc|cls m]; simpl.
    + rewrite extract_error_msg_spec. simpl.
      exists [text r]. rewrite !decoded_docs_app. cbn. rewrite !app_nil_r.
      split; [reflexivity | simpl; lia].
    + exists []. rewrite !decoded_docs_app. cbn. rewrite !app_nil_r.
      split; [reflexivity | simpl; lia].
    + exists []. destruct (json_is_request_exception env); simpl;
        rewrite ?decoded_docs_app; cbn; rewrite ?app_nil_r;
        (split; [reflexivity | simpl; lia]).
    + exists []. rewrite decoded_docs_app. cbn. rewrite !app_nil_r.
      split; [reflexivity | simpl; lia].
Qed.

End ClientBeyond.

(** ** [search_products] *)

Section SearchFacts.

Context {num : Type} (w : World num).

(** A [try] around the three lines with the handler that prints [label] and
    raises again. *)
Lemma logged_three_lines (label : string) (s : Session) (method url : string)
    (kw : kwargs num) (tr : list (Event num)) :
  try_except
    (response <- session_request (env_of w) s method url kw ;;
     call_raise_for_status response ;;;
     response_json (env_of w) response)
    (log_and_reraise w label) tr
  = (answer (env_of w) s method url kw,
     (tr ++ answer_events (env_of w) s method url kw
         ++ match answer (env_of w) s method url kw with
            | Raise e =>
                if is_RequestException (json_is_request_exception (env_of w)) e
                then [Printed (label ++ ": " ++ exn_str e)] else []
            | Return _ => []
            end)%list).
Proof.
  unfold try_except. rewrite three_lines.
  destruct (answer (env_of w) s method url kw) as [v|e].
  - now rewrite app_nil_r.
  - unfold log_and_reraise.
    destruct (is_RequestException (json_is_request_exception (env_of w)) e).
    + unfold bind, emit, raise. now rewrite <- app_assoc.
    + unfold raise. now rewrite app_nil_r.
Qed.

Lemma search_products_spec (query : string) (filters : list (string * value num))
    (tr : list (Event num)) :
  search_products w query filters tr
  = try_except
      (response <- session_request (env_of w) (fresh_session w) "GET"
                     (API_BASE_URL ++ "/products/search")
                     [("params", VDict (dict_update [("q", VStr query)] filters))] ;;
       call_raise_for_status response ;;;
       response_json (env_of w) response)
      (log_and_reraise w "Product search failed") tr.
Proof. reflexivity. Qed.

(** X3.  The parameters [search_products] sends: [q] comes first and the
    filters follow in their order; [q] is the query unless a filter named [q]
    is given, which then takes its place; every other parameter is the
    filter of that name.  One request is sent, a GET without body. *)
Theorem search_products_sends_query_first (query : string)
    (filters : list (string * value num)) (tr : list (Event num)) :
  NoDup (map fst filters) ->
  exists params,
    requests_sent (snd (search_products w query filters tr))
    = (requests_sent tr
       ++ [("GET", (API_BASE_URL ++ "/products/search")%string,
            Some (VDict params), None)])%list
    /\ map fst params
       = "q" :: filter (fun k => negb (String.eqb k "q")) (map fst filters)
    /\ dict_get "q" params
       = Some match dict_get "q" filters with
              | Some v => v
              | None => VStr query
              end
    /\ forall k, k <> "q" -> dict_get k params = dict_get k filters.
Proof.
  intros Hnd. exists (dict_update [("q", VStr query)] filters).
  repeat split.
  - rewrite search_products_spec, logged_three_lines. cbn [snd].
    rewrite !requests_sent_app, requests_sent_answer_events.
    destruct (answer _ _ _ _ _) as [v|e];
      [|destruct (is_RequestException _ e)]; cbn; now rewrite ?app_nil_r.
  - rewrite (keys_dict_update _ _ Hnd). cbn [map fst app]. f_equal.
    apply filter_ext. intros k. unfold dict_mem. cbn [dict_get].
    now destruct (String.eqb k "q").
  - rewrite (dict_get_update _ _ _ Hnd). cbn [dict_get].
    rewrite String.eqb_refl. now destruct (dict_get "q" filters).
  - intros k Hk. rewrite (dict_get_update _ _ _ Hnd). cbn [dict_get].
    apply String.eqb_neq in Hk. rewrite Hk. now destruct (dict_get k filters).
Qed.

(** X4.  On an answer with a 4xx or 5xx status, [search_products] prints
    [Product search failed:] with the status line of the library and raises
    the [HTTPError]; the body of the answer is not read, so a message the
    server sent is not shown. *)
Theorem search_products_error_status (query : string)
    (filters : list (string * value num)) (tr : list (Event num)) (r : Response) :
  transport (env_of w) (fresh_session w) "GET" (API_BASE_URL ++ "/products/search")
    [("params", VDict (dict_update [("q", VStr query)] filters))] = Return r ->
  400 <= status_code r < 600 ->
  search_products w query filters tr
  = (Raise (HTTPError (http_error_msg r) r),
     (tr ++ [Sent (fresh_session w) "GET" (API_BASE_URL ++ "/products/search")
               [("params", VDict (dict_update [("q", VStr query)] filters))];
             Printed ("Product search failed: " ++ http_error_msg r)])%list).
Proof.
  intros Ht Hs. rewrite search_products_spec, logged_three_lines.
  destruct (answer_error_status w _ _ _ _ r Ht Hs) as [Ha He].
  rewrite Ha, He. reflexivity.
Qed.

(** X5.  On an answer whose status is no error status and whose body does
    not parse (an empty body is such a body), [search_products] raises the
    decoder's exception: it has no empty-body case as [APIClient.request]
    has.  The failure is printed when the library classes the decode error
    under [RequestException]. *)
Theorem search_products_undecodable_body (query : string)
    (filters : list (string * value num)) (tr : list (Event num)) (r : Response)
    (msg : string) :
  transport (env_of w) (fresh_session w) "GET" (API_BASE_URL ++ "/products/search")
    [("params", VDict (dict_update [("q", VStr query)] filters))] = Return r ->
  status_code r < 400 \/ 600 <= status_code r ->
  json_loads (env_of w) (text r) = Malformed msg ->
  search_products w query filters tr
  = (Raise (JSONDecodeError msg (text r)),
     (tr ++ Sent (fresh_session w) "GET" (API_BASE_URL ++ "/products/search")
              [("params", VDict (dict_update [("q", VStr query)] filters))]
         :: Decoded (text r)
         :: if json_is_request_exception (env_of w)
            then [Printed ("Product search failed: " ++ msg)] else [])%list).
Proof.
  intros Ht Hs Hj. rewrite search_products_spec, logged_three_lines.
  destruct (answer_passing_status w _ _ _ _ r Ht Hs) as [Ha He].
  rewrite Ha, He, Hj. cbn [is_RequestException exn_str].
  now destruct (json_is_request_exception (env_of w)).
Qed.

End SearchFacts.

(** ** [get_product_with_inventory] *)

Section InventoryFacts.

Context {num : Type} (w : World num).

(** The three lines followed by the rest of a function. *)
Lemma three_lines_then {B : Type} (s : Session) (method url : string)
    (kw : kwargs num) (k : value num -> M num B) (tr : list (Event num)) :
  (response <- session_request (env_of w) s method url kw ;;
   call_raise_for_status response ;;;
   v <- response_json (env_of w) response ;;
   k v) tr
  = match answer (env_of w) s method url kw with
    | Return v => k v (tr ++ answer_events (env_of w) s method url kw)%list
    | Raise e => (Raise e, (tr ++ answer_events (env_of w) s method url kw)%list)
    end.
Proof.
  unfold bind, session_request, call_raise_for_status, response_json, emit,
    answer, answer_events, ret, raise.
  simpl.
  destruct (transport (env_of w) s method url kw) as [r|e]; simpl; [|reflexivity].
  destruct (raise_for_status r); simpl; [reflexivity|].
  destruct (json_loads (env_of w) (text r)); unfold bind; simpl;
    now rewrite <- app_assoc.
Qed.

Lemma get_product_with_inventory_spec (style_number color : string)
    (tr : list (Event num)) :
  get_product_with_inventory w style_number color tr
  = let kw := [("params", VDict [("styleNumber", VStr style_number);
                                 ("color", VStr color)])] in
    let ask := answer (env_of w) (fresh_session w) "GET" in
    let events := answer_events (env_of w) (fresh_session w) "GET" in
    let failed (stage : list (Event num)) (e : exn) :=
      (@Raise (value num) e,
       (stage ++ if is_RequestException (json_is_request_exception (env_of w)) e
                 then [Printed ("Failed to get product with inventory: " ++ exn_str e)]
                 else [])%list) in
    let tr1 := (tr ++ events (API_BASE_URL ++ "/product-details")%string kw)%list in
    let tr2 := (tr1 ++ events (API_BASE_URL ++ "/inventory")%string kw)%list in
    let tr3 := (tr2 ++ events (API_BASE_URL ++ "/sizes-by-style-color")%string kw)%list in
    match ask (API_BASE_URL ++ "/product-details") kw with
    | Raise e => failed tr1 e
    | Return product_details =>
        match ask (API_BASE_URL ++ "/inventory") kw with
        | Raise e => failed tr2 e
        | Return inventory =>
            match ask (API_BASE_URL ++ "/sizes-by-style-color") kw with
            | Raise e => failed tr3 e
            | Return sizes =>
                (Return (VDict [("product", product_details);
                                ("inventory", inventory);
                                ("available_sizes", sizes)]), tr3)
            end
        end
    end.
Proof.
  cbv zeta. unfold get_product_with_inventory, try_except, requests_get.
  rewrite three_lines_then.
  assert (Hlog : forall e tr',
             log_and_reraise w "Failed to get product with inventory" e tr'
             = (@Raise (value num) e,
                (tr' ++ if is_RequestException (json_is_request_exception (env_of w)) e
                        then [Printed ("Failed to get product with inventory: "
                                       ++ exn_str e)]
                        else [])%list)).
  { intros e tr'. unfold log_and_reraise.
    destruct (is_RequestException _ e); unfold bind, emit, raise; simpl;
      now rewrite ?app_nil_r. }
  destruct (answer _ _ "GET" (API_BASE_URL ++ "/product-details") _) as [p|e];
    [|apply Hlog].
  rewrite three_lines_then.
  destruct (answer _ _ "GET" (API_BASE_URL ++ "/inventory") _) as [i|e];
    [|apply Hlog].
  rewrite three_lines_then.
  destruct (answer _ _ "GET" (API_BASE_URL ++ "/sizes-by-style-color") _) as [s|e];
    [reflexivity|apply Hlog].
Qed.

(** X6.  When the three lookups are answered, [get_product_with_inventory]
    returns the three answers under [product], [inventory] and
    [available_sizes]; it has asked for the details, the inventory and the
    sizes, in this order, each with the same two parameters, and printed
    nothing. *)
Theorem get_product_with_inventory_success (style_number color : string)
    (tr : list (Event num)) (product_details inventory sizes : value num) :
  let params := VDict [("styleNumber", VStr style_number); ("color", VStr color)] in
  answer (env_of w) (fresh_session w) "GET" (API_BASE_URL ++ "/product-details")
    [("params", params)] = Return product_details ->
  answer (env_of w) (fresh_session w) "GET" (API_BASE_URL ++ "/inventory")
    [("params", params)] = Return inventory ->
  answer (env_of w) (fresh_session w) "GET" (API_BASE_URL ++ "/sizes-by-style-color")
    [("params", params)] = Return sizes ->
  fst (get_product_with_inventory w style_number color tr)
  = Return (VDict [("product", product_details);
                   ("inventory", inventory);
                   ("available_sizes", sizes)])
  /\ requests_sent (snd (get_product_with_inventory w style_number color tr))
     = (requests_sent tr
        ++ [("GET", (API_BASE_URL ++ "/product-details")%string, Some params, None);
            ("GET", (API_BASE_URL ++ "/inventory")%string, Some params, None);
            ("GET", (API_BASE_URL ++ "/sizes-by-style-color")%string,
             Some params, None)])%list
  /\ printed_lines (snd (get_product_with_inventory w style_number color tr))
     = printed_lines tr.
Proof.
  intros params H1 H2 H3. rewrite get_product_with_inventory_spec. cbv zeta.
  fold params. rewrite H1, H2, H3. cbn [fst snd]. repeat split.
  - rewrite !requests_sent_app, !requests_sent_answer_events.
    cbn [dict_get String.eqb Ascii.eqb Bool.eqb]. now rewrite <- !app_assoc.
  - rewrite !printed_lines_app, !printed_lines_answer_events.
    now rewrite !app_nil_r.
Qed.

(** X7.  When the lookup of the product details fails, with any exception,
    [get_product_with_inventory] raises that exception and asks for nothing
    else: the inventory and the sizes are never requested.  An exception of
    the library's classes is printed once, with the label of the function. *)
Theorem get_product_with_inventory_stops_at_details (style_number color : string)
    (tr : list (Event num)) (e : exn) :
  let params := VDict [("styleNumber", VStr style_number); ("color", VStr color)] in
  answer (env_of w) (fresh_session w) "GET" (API_BASE_URL ++ "/product-details")
    [("params", params)] = Raise e ->
  fst (get_product_with_inventory w style_number color tr) = Raise e
  /\ requests_sent (snd (get_product_with_inventory w style_number color tr))
     = (requests_sent tr
        ++ [("GET", (API_BASE_URL ++ "/product-details")%string, Some params, None)])%list
  /\ printed_lines (snd (get_product_with_inventory w style_number color tr))
     = (printed_lines tr
        ++ if is_RequestException (json_is_request_exception (env_of w)) e
           then [("Failed to get product with inventory: " ++ exn_str e)%string]
           else [])%list.
Proof.
  intros params H1. rewrite get_product_with_inventory_spec. cbv zeta.
  fold params. rewrite H1. cbn [fst snd]. repeat split.
  - rewrite !requests_sent_app, !requests_sent_answer_events.
    destruct (is_RequestException _ e); cbn; now rewrite ?app_nil_r.
  - rewrite !printed_lines_app, !printed_lines_answer_events.
    destruct (is_RequestException _ e); cbn; now rewrite ?app_nil_r.
Qed.

(** X8.  When the details are answered and the lookup of the inventory
    fails, [get_product_with_inventory] raises the exception of the
    inventory lookup after two requests; the sizes are never requested and
    the details already fetched are dropped. *)
Theorem get_product_with_inventory_stops_at_inventory (style_number color : string)
    (tr : list (Event num)) (product_details : value num) (e : exn) :
  let params := VDict [("styleNumber", VStr style_number); ("color", VStr color)] in
  answer (env_of w) (fresh_session w) "GET" (API_BASE_URL ++ "/product-details")
    [("params", params)] = Return product_details ->
  answer (env_of w) (fresh_session w) "GET" (API_BASE_URL ++ "/inventory")
    [("params", params)] = Raise e ->
  fst (get_product_with_inventory w style_number color tr) = Raise e
  /\ requests_sent (snd (get_product_with_inventory w style_number color tr))
     = (requests_sent tr
        ++ [("GET", (API_BASE_URL ++ "/product-details")%string, Some params, None);
            ("GET", (API_BASE_URL ++ "/inventory")%string, Some params, None)])%list
  /\ printed_lines (snd (get_product_with_inventory w style_number color tr))
     = (printed_lines tr
        ++ if is_RequestException (json_is_request_exception (env_of w)) e
           then [("Failed to get product with inventory: " ++ exn_str e)%string]
           else [])%list.
Proof.
  intros params H1 H2. rewrite get_product_with_inventory_spec. cbv zeta.
  fold params. rewrite H1, H2. cbn [fst snd]. repeat split.
  - rewrite !requests_sent_app, !requests_sent_answer_events.
    destruct (is_RequestException _ e); cbn; now rewrite <- ?app_assoc, ?app_nil_r.
  - rewrite !printed_lines_app, !printed_lines_answer_events.
    destruct (is_RequestException _ e); cbn; now rewrite ?app_nil_r.
Qed.

End InventoryFacts.

(** ** [CartManager] *)

Section CartFacts.

Import Cart.

Context {num : Type} (w : World num).

Lemma meth_three_lines {S : Type} (s : Session) (method url : string)
    (kw : kwargs num) (self : S) (tr : list (Event num)) :
  (response <~ lift (session_request (env_of w) s method url kw) ;;
   lift (call_raise_for_status response) ;;~
   lift (response_json (env_of w) response)) self tr
  = (answer (env_of w) s method url kw, self,
     (tr ++ answer_events (env_of w) s method url kw)%list).
Proof.
  unfold mbind, lift, session_request, call_raise_for_status, response_json,
    bind, emit, answer, answer_events, ret, raise.
  simpl.
  destruct (transport (env_of w) s method url kw) as [r|e]; simpl; [|reflexivity].
  destruct (raise_for_status r); simpl; [reflexivity|].
  destruct (json_loads (env_of w) (text r)); simpl; now rewrite <- app_assoc.
Qed.

Lemma meth_three_lines_then {S B : Type} (s : Session) (method url : string)
    (kw : kwargs num) (k : value num -> Meth num S B) (self : S)
    (tr : list (Event num)) :
  (response <~ lift (session_request (env_of w) s method url kw) ;;
   lift (call_raise_for_status response) ;;~
   v <~ lift (response_json (env_of w) response) ;;
   k v) self tr
  = match answer (env_of w) s method url kw with
    | Return v => k v self (tr ++ answer_events (env_of w) s method url kw)%list
    | Raise e => (Raise e, self, (tr ++ answer_events (env_of w) s method url kw)%list)
    end.
Proof.
  unfold mbind, lift, session_request, call_raise_for_status, response_json,
    bind, emit, answer, answer_events, ret, raise.
  simpl.
  destruct (transport (env_of w) s method url kw) as [r|e]; simpl; [|reflexivity].
  destruct (raise_for_status r); simpl; [reflexivity|].
  destruct (json_loads (env_of w) (text r)); simpl; now rewrite <- app_assoc.
Qed.

Lemma create_session_spec (user_id : value num) (self : CartManager num)
    (tr : list (Event num)) :
  create_session w user_id self tr
  = let url := (base_url self ++ "/cart-sessions")%string in
    let kw := [("json", VDict [("SessionID", VStr (generated_id w tr));
                               ("UserID", user_id);
                               ("IsActive", VBool true)])] in
    let tr' := (tr ++ answer_events (env_of w) (fresh_session w) "POST" url kw)%list in
    match answer (env_of w) (fresh_session w) "POST" url kw with
    | Raise e => (Raise e, self, tr')
    | Return (VDict d) =>
        match dict_get "SessionID" d with
        | Some sid =>
            (Return (VDict d), {| base_url := base_url self; session_id := sid |}, tr')
        | None => (Raise (BuiltinError "KeyError" "SessionID"), self, tr')
        end
    | Return _ => (Raise (BuiltinError "TypeError" "indices must be integers"), self, tr')
    end.
Proof.
  cbv zeta. unfold create_session, requests_post.
  unfold mbind at 1. unfold get_self at 1. cbv beta iota.
  rewrite meth_three_lines_then.
  destruct (answer _ _ _ _ _) as [v|e]; [|reflexivity].
  destruct v as [| b | n | s | l | d]; try reflexivity.
  unfold mbind, lift, py_getitem, set_self, mret, ret, raise.
  destruct (dict_get "SessionID" d); reflexivity.
Qed.

Lemma mbind_run {S A B : Type} (m : Meth num S A) (k : A -> Meth num S B)
    (self : S) (tr : list (Event num)) :
  mbind m k self tr
  = match m self tr with
    | (Return a, self', tr') => k a self' tr'
    | (Raise e, self', tr') => (Raise e, self', tr')
    end.
Proof. reflexivity. Qed.

(** X9.  When the server answers the POST to [/cart-sessions] with a JSON
    object that has a [SessionID], [create_session] returns the object and
    the manager takes over the server's [SessionID], not the identifier it
    generated and sent.  The body sent holds the generated identifier, the
    user and [IsActive = True]. *)
Theorem create_session_adopts_server_id (user_id : value num)
    (self : CartManager num) (tr : list (Event num))
    (d : list (string * value num)) (sid : value num) :
  let data := VDict [("SessionID", VStr (generated_id w tr));
                     ("UserID", user_id);
                     ("IsActive", VBool true)] in
  answer (env_of w) (fresh_session w) "POST" (base_url self ++ "/cart-sessions")
    [("json", data)] = Return (VDict d) ->
  dict_get "SessionID" d = Some sid ->
  fst (fst (create_session w user_id self tr)) = Return (VDict d)
  /\ snd (fst (create_session w user_id self tr))
     = {| base_url := base_url self; session_id := sid |}
  /\ requests_sent (snd (create_session w user_id self tr))
     = (requests_sent tr
        ++ [("POST", (base_url self ++ "/cart-sessions")%string, None, Some data)])%list.
Proof.
  intros data Ha Hsid. rewrite create_session_spec. cbv zeta. fold data.
  rewrite Ha, Hsid. cbn [fst snd]. repeat split.
  now rewrite requests_sent_app, requests_sent_answer_events.
Qed.

(** X10.  [create_session] either returns a JSON object with a [SessionID]
    and leaves that value in the manager, or raises and leaves the manager
    as it was: a failed call (transport, status, body that does not parse,
    answer without [SessionID]) never clears or changes the session.  It
    prints nothing either way. *)
Theorem create_session_sets_id_or_changes_nothing (user_id : value num)
    (self : CartManager num) (tr : list (Event num)) :
  match fst (fst (create_session w user_id self tr)) with
  | Return session =>
      exists d sid,
        session = VDict d
        /\ dict_get "SessionID" d = Some sid
        /\ snd (fst (create_session w user_id self tr))
           = {| base_url := base_url self; session_id := sid |}
  | Raise _ => snd (fst (create_session w user_id self tr)) = self
  end
  /\ printed_lines (snd (create_session w user_id self tr)) = printed_lines tr.
Proof.
  rewrite create_session_spec. cbv zeta.
  destruct (answer _ _ _ _ _) as [v|e];
    [destruct v as [| b | n | s | l | d];
     [| | | | |destruct (dict_get "SessionID" d) as [sid|] eqn:Hsid]|];
    cbn [fst snd]; (split; [|rewrite printed_lines_app, printed_lines_answer_events;
                             now rewrite app_nil_r]);
    try reflexivity.
  exists d, sid. repeat split. exact Hsid.
Qed.

Lemma add_item_spec (product_id style_number color title : string)
    (self : CartManager num) (tr : list (Event num)) :
  add_item w product_id style_number color title self tr
  = let post_item (self' : CartManager num) (tr' : list (Event num)) :=
      let url := (base_url self' ++ "/cart-items")%string in
      let kw := [("json", VDict [("SessionID", session_id self');
                                 ("ProductID", VStr product_id);
                                 ("StyleNumber", VStr style_number);
                                 ("Color", VStr color);
                                 ("PRODUCT_TITLE", VStr title);
                                 ("CartStatus", VStr "Active")])] in
      (answer (env_of w) (fresh_session w) "POST" url kw, self',
       (tr' ++ answer_events (env_of w) (fresh_session w) "POST" url kw)%list) in
    if truthy w (session_id self) then post_item self tr
    else
      match create_session w VNone self tr with
      | (Return _, self', tr') => post_item self' tr'
      | (Raise e, self', tr') => (Raise e, self', tr')
      end.
Proof.
  cbv zeta. unfold add_item, requests_post.
  rewrite mbind_run. unfold get_self at 1. cbv beta iota.
  rewrite mbind_run.
  destruct (truthy w (session_id self)); cbn [negb].
  - unfold mret at 1. cbv beta iota.
    rewrite mbind_run. unfold get_self at 1. cbv beta iota.
    apply meth_three_lines.
  - rewrite mbind_run.
    destruct (create_session w VNone self tr) as [[[v|e] self'] tr']; [|reflexivity].
    unfold mret at 1. cbv beta iota.
    rewrite mbind_run. unfold get_self at 1. cbv beta iota.
    apply meth_three_lines.
Qed.

(** X11.  [add_item] on a manager without session opens one first: when the
    server answers the POST to [/cart-sessions] with a [SessionID], the item
    is posted to [/cart-items] under the server's [SessionID], after the
    session request; the outcome is the one of the item request, and the
    manager keeps the new session even when the item request fails. *)
Theorem add_item_opens_a_session_first (product_id style_number color title : string)
    (self : CartManager num) (tr : list (Event num))
    (d : list (string * value num)) (sid : value num) :
  let opening := VDict [("SessionID", VStr (generated_id w tr));
                        ("UserID", VNone);
                        ("IsActive", VBool true)] in
  let item := VDict [("SessionID", sid);
                     ("ProductID", VStr product_id);
                     ("StyleNumber", VStr style_number);
                     ("Color", VStr color);
                     ("PRODUCT_TITLE", VStr title);
                     ("CartStatus", VStr "Active")] in
  truthy w (session_id self) = false ->
  answer (env_of w) (fresh_session w) "POST" (base_url self ++ "/cart-sessions")
    [("json", opening)] = Return (VDict d) ->
  dict_get "SessionID" d = Some sid ->
  fst (fst (add_item w product_id style_number color title self tr))
  = answer (env_of w) (fresh_session w) "POST" (base_url self ++ "/cart-items")
      [("json", item)]
  /\ snd (fst (add_item w product_id style_number color title self tr))
     = {| base_url := base_url self; session_id := sid |}
  /\ requests_sent (snd (add_item w product_id style_number color title self tr))
     = (requests_sent tr
        ++ [("POST", (base_url self ++ "/cart-sessions")%string, None, Some opening);
            ("POST", (base_url self ++ "/cart-items")%string, None, Some item)])%list.
Proof.
  intros opening item Hno Ha Hsid. rewrite add_item_spec. cbv zeta.
  rewrite Hno, create_session_spec. cbv zeta. fold opening.
  rewrite Ha, Hsid. cbn [fst snd base_url session_id]. fold item. repeat split.
  rewrite !requests_sent_app, !requests_sent_answer_events.
  now rewrite <- app_assoc.
Qed.

(** X12.  [add_item] on a manager with a session sends one request, the
    item under the manager's [SessionID], and leaves the manager as it is;
    no session is opened. *)
Theorem add_item_reuses_the_session (product_id style_number color title : string)
    (self : CartManager num) (tr : list (Event num)) :
  let item := VDict [("SessionID", session_id self);
                     ("ProductID", VStr product_id);
                     ("StyleNumber", VStr style_number);
                     ("Color", VStr color);
                     ("PRODUCT_TITLE", VStr title);
                     ("CartStatus", VStr "Active")] in
  truthy w (session_id self) = true ->
  fst (fst (add_item w product_id style_number color title self tr))
  = answer (env_of w) (fresh_session w) "POST" (base_url self ++ "/cart-items")
      [("json", item)]
  /\ snd (fst (add_item w product_id style_number color title self tr)) = self
  /\ requests_sent (snd (add_item w product_id style_number color title self tr))
     = (requests_sent tr
        ++ [("POST", (base_url self ++ "/cart-items")%string, None, Some item)])%list.
Proof.
  intros item Hyes. rewrite add_item_spec. cbv zeta. rewrite Hyes.
  cbn [fst snd]. fold item. repeat split.
  now rewrite requests_sent_app, requests_sent_answer_events.
Qed.

(** X13.  When [add_item] has to open a session and [create_session]
    raises, [add_item] raises the same exception; the item is never posted
    and the manager stays without session. *)
Theorem add_item_stops_when_no_session_opens
    (product_id style_number color title : string)
    (self : CartManager num) (tr : list (Event num)) (e : exn) :
  truthy w (session_id self) = false ->
  fst (fst (create_session w VNone self tr)) = Raise e ->
  fst (fst (add_item w product_id style_number color title self tr)) = Raise e
  /\ snd (fst (add_item w product_id style_number color title self tr)) = self
  /\ requests_sent (snd (add_item w product_id style_number color title self tr))
     = (requests_sent tr
        ++ [("POST", (base_url self ++ "/cart-sessions")%string, None,
             Some (VDict [("SessionID", VStr (generated_id w tr));
                          ("UserID", VNone);
                          ("IsActive", VBool true)]))])%list.
Proof.
  intros Hno Hraise. rewrite add_item_spec. cbv zeta. rewrite Hno.
  rewrite create_session_spec in *. cbv zeta in *.
  destruct (answer _ _ _ _ _) as [v|e'];
    [destruct v as [| b | n | s | l | d];
     [| | | | |destruct (dict_get "SessionID" d) as [sid|]]|];
    cbn [fst snd] in *; try discriminate Hraise;
    (repeat split; [exact Hraise|]);
    now rewrite requests_sent_app, requests_sent_answer_events.
Qed.

Lemma get_cart_items_spec (self : CartManager num) (tr : list (Event num)) :
  get_cart_items w self tr
  = if truthy w (session_id self)
    then (answer (env_of w) (fresh_session w) "GET" (base_url self ++ "/cart-items")
            [("params", VDict [("sessionID", session_id self)])],
          self,
          (tr ++ answer_events (env_of w) (fresh_session w) "GET"
                   (base_url self ++ "/cart-items")
                   [("params", VDict [("sessionID", session_id self)])])%list)
    else (Return (VList []), self, tr).
Proof.
  unfold get_cart_items, requests_get.
  rewrite mbind_run. unfold get_self at 1. cbv beta iota.
  destruct (truthy w (session_id self)); cbn [negb]; [|reflexivity].
  apply meth_three_lines.
Qed.

(** X14.  [get_cart_items] asks the server only when the manager has a
    session: without one it returns the empty list and sends nothing; with
    one it sends a single GET to [/cart-items] with the session as
    [sessionID].  It never changes the manager. *)
Theorem get_cart_items_asks_only_with_session (self : CartManager num)
    (tr : list (Event num)) :
  requests_sent (snd (get_cart_items w self tr))
  = (requests_sent tr
     ++ if truthy w (session_id self)
        then [("GET", (base_url self ++ "/cart-items")%string,
               Some (VDict [("sessionID", session_id self)]), None)]
        else [])%list
  /\ snd (fst (get_cart_items w self tr)) = self
  /\ fst (fst (get_cart_items w self tr))
     = if truthy w (session_id self)
       then answer (env_of w) (fresh_session w) "GET" (base_url self ++ "/cart-items")
              [("params", VDict [("sessionID", session_id self)])]
       else Return (VList []).
Proof.
  rewrite get_cart_items_spec.
  destruct (truthy w (session_id self)); cbn [fst snd]; repeat split.
  - now rewrite requests_sent_app, requests_sent_answer_events.
  - now rewrite app_nil_r.
Qed.

(** X15.  [add_item_size] sends the cart item, the size and the quantity,
    and the unit price only when it is true for Python: a price of [None] or
    of zero is left out of the body, any other price is sent last, as
    [UnitPrice]. *)
Theorem add_item_size_drops_a_zero_price (cart_item_id : value num) (size : string)
    (quantity unit_price : value num) (self : CartManager num)
    (tr : list (Event num)) :
  exists data,
    requests_sent (snd (add_item_size w cart_item_id size quantity unit_price self tr))
    = (requests_sent tr
       ++ [("POST", (base_url self ++ "/cart-item-sizes")%string, None,
            Some (VDict data))])%list
    /\ data = ([("CartItemID", cart_item_id); ("Size", VStr size);
                ("Quantity", quantity)]
               ++ if truthy w unit_price then [("UnitPrice", unit_price)] else [])%list
    /\ (unit_price = VNone -> dict_get "UnitPrice" data = None)
    /\ (forall n, unit_price = VNum n -> nonzero w n = false ->
                  dict_get "UnitPrice" data = None).
Proof.
  exists (size_data w cart_item_id size quantity unit_price).
  split; [|split; [|split]].
  - unfold add_item_size, requests_post.
    rewrite mbind_run. unfold get_self at 1. cbv beta iota.
    rewrite meth_three_lines. cbn [fst snd].
    now rewrite requests_sent_app, requests_sent_answer_events.
  - unfold size_data. now destruct (truthy w unit_price).
  - intros ->. reflexivity.
  - intros n -> Hn. unfold size_data. cbn [truthy]. now rewrite Hn.
Qed.

End CartFacts.

(** ** [OrderDashboard] *)

Section DashboardFacts.

Import Dashboard.

Context {num : Type} (w : World num).

(** X16.  [get_order_records] sends the filters that are true for Python
    and no other: [where], [order_by] and [limit] go into the parameters as
    [q.where], [q.orderBy] and [q.limit], in this order, and a filter that is
    [None], an empty string or a zero limit is left out.  One GET is sent to
    [/order-odbc] and nothing is printed, whatever the answer. *)
Theorem get_order_records_sends_true_filters (base_url : string)
    (where_ order_by limit : value num) (tr : list (Event num)) :
  let params :=
    ((if truthy w where_ then [("q.where", where_)] else [])
     ++ (if truthy w order_by then [("q.orderBy", order_by)] else [])
     ++ (if truthy w limit then [("q.limit", limit)] else []))%list in
  requests_sent (snd (get_order_records w base_url where_ order_by limit tr))
  = (requests_sent tr
     ++ [("GET", (base_url ++ "/order-odbc")%string, Some (VDict params), None)])%list
  /\ fst (get_order_records w base_url where_ order_by limit tr)
     = answer (env_of w) (fresh_session w) "GET" (base_url ++ "/order-odbc")
         [("params", VDict params)]
  /\ printed_lines (snd (get_order_records w base_url where_ order_by limit tr))
     = printed_lines tr.
Proof.
  intros params.
  assert (Hparams : record_params w where_ order_by limit = params).
  { unfold record_params, params.
    destruct (truthy w where_), (truthy w order_by), (truthy w limit); reflexivity. }
  unfold get_order_records, requests_get. rewrite three_lines, Hparams.
  cbn [fst snd]. repeat split.
  - now rewrite requests_sent_app, requests_sent_answer_events.
  - rewrite printed_lines_app, printed_lines_answer_events. now rewrite app_nil_r.
Qed.

(** X17.  On an answer with a 4xx or 5xx status, [get_metrics] raises the
    [HTTPError] of the library and does nothing else: the body is not read
    and nothing is printed.  The request carries the three parameters
    [days], [includeDetails] and [compareYoY]. *)
Theorem get_metrics_error_status (base_url : string) (days : value num)
    (include_details compare_yoy : bool) (tr : list (Event num)) (r : Response) :
  let kw := [("params", VDict [("days", days);
                               ("includeDetails", VBool include_details);
                               ("compareYoY", VBool compare_yoy)])] in
  transport (env_of w) (fresh_session w) "GET" (base_url ++ "/order-dashboard") kw
    = Return r ->
  400 <= status_code r < 600 ->
  get_metrics w base_url days include_details compare_yoy tr
  = (Raise (HTTPError (http_error_msg r) r),
     (tr ++ [Sent (fresh_session w) "GET" (base_url ++ "/order-dashboard") kw])%list).
Proof.
  intros kw Ht Hs. unfold get_metrics, requests_get. rewrite three_lines.
  fold kw. destruct (answer_error_status w _ _ _ _ r Ht Hs) as [Ha He].
  now rewrite Ha, He.
Qed.

End DashboardFacts.

(** ** [ArtRequestManager] *)

Section ArtFacts.

Import Art.

Context {num : Type} (w : World num).

(** X18.  The body [create_art_request] posts to [/artrequests]:
    [CompanyName] and [Status] come first, the additional fields follow in
    their order; an additional field named [CompanyName] or [Status] takes
    the place of the argument of that name, where that one stood. *)
Theorem create_art_request_body (client : APIClient) (company_name status : string)
    (additional_fields : list (string * value num)) (tr : list (Event num)) :
  NoDup (map fst additional_fields) ->
  exists data,
    requests_sent (snd (create_art_request w client company_name status
                          additional_fields tr))
    = (requests_sent tr
       ++ [("POST", (base_url client ++ "/artrequests")%string, None,
            Some (VDict data))])%list
    /\ map fst data
       = "CompanyName" :: "Status"
         :: filter (fun k => negb (String.eqb k "CompanyName")
                             && negb (String.eqb k "Status"))
              (map fst additional_fields)
    /\ dict_get "CompanyName" data
       = Some match dict_get "CompanyName" additional_fields with
              | Some v => v
              | None => VStr company_name
              end
    /\ dict_get "Status" data
       = Some match dict_get "Status" additional_fields with
              | Some v => v
              | None => VStr status
              end
    /\ forall k, k <> "CompanyName" -> k <> "Status" ->
                 dict_get k data = dict_get k additional_fields.
Proof.
  intros Hnd.
  exists (dict_update [("CompanyName", VStr company_name); ("Status", VStr status)]
            additional_fields).
  split; [|split; [|split; [|split]]].
  - unfold create_art_request, post. now rewrite request_sends_once.
  - rewrite (keys_dict_update _ _ Hnd). cbn [map fst app]. do 2 f_equal.
    apply filter_ext. intros k. unfold dict_mem. cbn [dict_get].
    now destruct (String.eqb k "CompanyName"), (String.eqb k "Status").
  - rewrite (dict_get_update _ _ _ Hnd). cbn [dict_get].
    rewrite String.eqb_refl. now destruct (dict_get "CompanyName" additional_fields).
  - rewrite (dict_get_update _ _ _ Hnd). cbn [dict_get].
    change (String.eqb "Status" "CompanyName") with false. rewrite String.eqb_refl.
    now destruct (dict_get "Status" additional_fields).
  - intros k Hc Hs. rewrite (dict_get_update _ _ _ Hnd). cbn [dict_get].
    apply String.eqb_neq in Hc, Hs. rewrite Hc, Hs.
    now destruct (dict_get k additional_fields).
Qed.

(** X19.  The failures of [update_art_request] are the client's: on an
    answer with a 4xx or 5xx status the client prints its failure line for
    the endpoint [/artrequests/{request_id}], with the message of the
    answer, and the [HTTPError] reaches the caller of the manager.  The
    request is a PUT to that path with the updates as body. *)
Theorem update_art_request_error_status (client : APIClient) (request_id : Z)
    (updates : list (string * value num)) (tr : list (Event num)) (r : Response) :
  let endpoint := ("/artrequests/" ++ str_int request_id)%string in
  transport (env_of w) (session client) "PUT" (base_url client ++ endpoint)
    [("json", VDict updates)] = Return r ->
  400 <= status_code r < 600 ->
  update_art_request w client request_id updates tr
  = (Raise (HTTPError (http_error_msg r) r),
     (tr ++ [Sent (session client) "PUT" (base_url client ++ endpoint)
               [("json", VDict updates)];
             Decoded (text r);
             Printed ("API Request failed for " ++ endpoint ++ ": "
                      ++ format (env_of w) (error_message (env_of w) r))])%list).
Proof.
  intros endpoint Ht Hs. unfold update_art_request, put. fold endpoint.
  now rewrite (request_error_status (env_of w) client "PUT" endpoint _ tr r Ht Hs).
Qed.

End ArtFacts.

(** ** [calculate_order_price]: the tiers it reads and the errors it raises *)

Section PricingBeyond.

Import Pricing.

Context {num : Type} `{PyNumber num} (api : PricingApi num).

(** X20.  The loop over the tiers stops at the first tier whose range holds
    the quantity: the tiers behind it are never read, so a later tier that
    lacks an entry, or that would match as well, changes nothing. *)
Theorem find_applicable_tier_ignores_later_tiers (qty : num)
    (before : list (dict num)) (tier : dict num) (after : list (dict num)) :
  Forall (fun t => tier_applies qty t = Return false) before ->
  tier_applies qty tier = Return true ->
  find_applicable_tier qty (before ++ tier :: after) = Return (Some tier).
Proof.
  intros Hbefore Htier.
  induction Hbefore as [|t before Ht _ IH]; cbn [app find_applicable_tier].
  - now rewrite Htier.
  - rewrite Ht. exact IH.
Qed.

(** X21.  A tier without [minQuantity] that the loop reaches makes it raise
    [KeyError] for that key; the tiers behind it are not looked at. *)
Theorem find_applicable_tier_missing_lower_bound (qty : num)
    (before : list (dict num)) (tier : dict num) (after : list (dict num)) :
  Forall (fun t => tier_applies qty t = Return false) before ->
  dict_get "minQuantity" tier = None ->
  find_applicable_tier qty (before ++ tier :: after)
  = Raise (BuiltinError "KeyError" "minQuantity").
Proof.
  intros Hbefore Hmin.
  induction Hbefore as [|t before Ht _ IH]; cbn [app find_applicable_tier].
  - unfold tier_applies, getitem. now rewrite Hmin.
  - rewrite Ht. exact IH.
Qed.

(** X22.  The upper bound of a tier is read only when the lower bound
    holds: a tier without [maxQuantity] whose [minQuantity] is above the
    quantity is passed over like any tier that does not apply, and raises
    [KeyError] for [maxQuantity] otherwise. *)
Theorem find_applicable_tier_missing_upper_bound (qty lo : num)
    (tier : dict num) (rest : list (dict num)) :
  dict_get "minQuantity" tier = Some lo ->
  dict_get "maxQuantity" tier = None ->
  find_applicable_tier qty (tier :: rest)
  = if leb lo qty then Raise (BuiltinError "KeyError" "maxQuantity")
    else find_applicable_tier qty rest.
Proof.
  intros Hmin Hmax. cbn [find_applicable_tier].
  unfold tier_applies, getitem. rewrite Hmin. cbn [and_then].
  destruct (leb lo qty); [now rewrite Hmax | reflexivity].
Qed.

Lemma find_applicable_tier_some (qty : num) (tiers : list (dict num))
    (tier : dict num) :
  find_applicable_tier qty tiers = Return (Some tier) ->
  tier_applies qty tier = Return true.
Proof.
  induction tiers as [|t tiers IH]; cbn [find_applicable_tier]; [discriminate|].
  destruct (tier_applies qty t) as [[|]|e] eqn:Ht; cbn [and_then].
  - intros Heq. injection Heq as <-. exact Ht.
  - exact IH.
  - discriminate.
Qed.

(** X23.  The price of the applicable tier is read before the embroidery
    endpoint is asked: when the applicable tier has no [price],
    [calculate_order_price] raises [KeyError] for [price] whatever the
    decoration type and the stitch count are, also for an embroidery order
    whose cost would come from the embroidery endpoint. *)
Theorem calculate_order_price_needs_the_tier_price
    (style_number decoration_type : string) (qty : num) (stitch_count : option Z)
    (base_costs : dict num) (tiers : list (dict num)) (tier : dict num) :
  get_base_item_costs api style_number = Return base_costs ->
  get_pricing_tiers api decoration_type = Return tiers ->
  find_applicable_tier qty tiers = Return (Some tier) ->
  dict_get "price" tier = None ->
  calculate_order_price api style_number decoration_type qty stitch_count
  = Raise (BuiltinError "KeyError" "price").
Proof.
  intros Hbase Htiers Hfind Hprice.
  unfold calculate_order_price. rewrite Hbase, Htiers. cbn [and_then].
  rewrite Hfind. cbn [and_then].
  apply find_applicable_tier_some in Hfind.
  destruct tier as [|b t].
  - unfold tier_applies, getitem in Hfind. discriminate Hfind.
  - unfold tier_price, getitem. now rewrite Hprice.
Qed.

End PricingBeyond.

(** ** The properties above on the example shop *)

Section BeyondExamples.

Import Number Example Shop.

(** X3 on a search for polo with a limit and a filter named [q]. *)
Lemma search_products_sends_query_first_witness :
  exists params,
    requests_sent
      (snd (search_products open_shop "polo"
              [("limit", VNum 5); ("q", VStr "shirt"); ("brand", VStr "Port")] []))
    = [("GET", search_url, Some (VDict params), None)]
    /\ map fst params = ["q"; "limit"; "brand"]
    /\ dict_get "q" params = Some (VStr "shirt")
    /\ forall k, k <> "q" ->
                 dict_get k params
                 = dict_get k [("limit", VNum 5); ("q", VStr "shirt");
                               ("brand", VStr "Port")].
Proof.
  apply (search_products_sends_query_first open_shop "polo"
           [("limit", VNum 5); ("q", VStr "shirt"); ("brand", VStr "Port")] []).
  repeat constructor; simpl; intuition discriminate.
Defined.

(** X4 on the shop whose search answers 404 with a message. *)
Lemma search_products_error_status_witness :
  search_products broken_shop "polo" [] []
  = (Raise (HTTPError (http_error_msg (failed 404 "Not Found" search_url not_found_body))
              (failed 404 "Not Found" search_url not_found_body)),
     [Sent {| headers := [] |} "GET" search_url [("params", VDict [("q", VStr "polo")])];
      Printed ("Product search failed: "
               ++ http_error_msg (failed 404 "Not Found" search_url not_found_body))]).
Proof.
  apply (search_products_error_status broken_shop "polo" [] []
           (failed 404 "Not Found" search_url not_found_body)).
  - reflexivity.
  - simpl. lia.
Defined.

(** X5 on the shop whose search answers 200 without body. *)
Lemma search_products_undecodable_body_witness :
  search_products silent_shop "polo" [] []
  = (Raise (JSONDecodeError "Expecting value: line 1 column 1 (char 0)" EmptyString),
     [Sent {| headers := [] |} "GET" search_url [("params", VDict [("q", VStr "polo")])];
      Decoded EmptyString;
      Printed "Product search failed: Expecting value: line 1 column 1 (char 0)"]).
Proof.
  apply (search_products_undecodable_body silent_shop "polo" [] []
           (ok search_url EmptyString) "Expecting value: line 1 column 1 (char 0)").
  - reflexivity.
  - simpl. lia.
  - reflexivity.
Defined.

(** X6 on the open shop. *)
Lemma get_product_with_inventory_success_witness :
  fst (get_product_with_inventory open_shop "PC61" "Navy" [])
  = Return (VDict [("product", VDict [("title", VStr "Essential Tee")]);
                   ("inventory", VList []);
                   ("available_sizes", VList [])])
  /\ requests_sent (snd (get_product_with_inventory open_shop "PC61" "Navy" []))
     = [("GET", details_url,
         Some (VDict [("styleNumber", VStr "PC61"); ("color", VStr "Navy")]), None);
        ("GET", inventory_url,
         Some (VDict [("styleNumber", VStr "PC61"); ("color", VStr "Navy")]), None);
        ("GET", sizes_url,
         Some (VDict [("styleNumber", VStr "PC61"); ("color", VStr "Navy")]), None)]
  /\ printed_lines (snd (get_product_with_inventory open_shop "PC61" "Navy" [])) = [].
Proof.
  apply (get_product_with_inventory_success open_shop "PC61" "Navy" []
           (VDict [("title", VStr "Essential Tee")]) (VList []) (VList []));
    reflexivity.
Defined.

(** X7 on the shop that cannot be reached for the details. *)
Lemma get_product_with_inventory_stops_at_details_witness :
  fst (get_product_with_inventory silent_shop "PC61" "Navy" [])
  = Raise (RequestException "ConnectionError" "Connection refused")
  /\ requests_sent (snd (get_product_with_inventory silent_shop "PC61" "Navy" []))
     = [("GET", details_url,
         Some (VDict [("styleNumber", VStr "PC61"); ("color", VStr "Navy")]), None)]
  /\ printed_lines (snd (get_product_with_inventory silent_shop "PC61" "Navy" []))
     = ["Failed to get product with inventory: Connection refused"].
Proof.
  apply (get_product_with_inventory_stops_at_details silent_shop "PC61" "Navy" []
           (RequestException "ConnectionError" "Connection refused")).
  reflexivity.
Defined.

(** X8 on the shop whose inventory answers 503. *)
Lemma get_product_with_inventory_stops_at_inventory_witness :
  fst (get_product_with_inventory broken_shop "PC61" "Navy" [])
  = Raise (HTTPError
             (http_error_msg (failed 503 "Service Unavailable" inventory_url EmptyString))
             (failed 503 "Service Unavailable" inventory_url EmptyString))
  /\ requests_sent (snd (get_product_with_inventory broken_shop "PC61" "Navy" []))
     = [("GET", details_url,
         Some (VDict [("styleNumber", VStr "PC61"); ("color", VStr "Navy")]), None);
        ("GET", inventory_url,
         Some (VDict [("styleNumber", VStr "PC61"); ("color", VStr "Navy")]), None)]
  /\ printed_lines (snd (get_product_with_inventory broken_shop "PC61" "Navy" []))
     = [("Failed to get product with inventory: "
         ++ http_error_msg (failed 503 "Service Unavailable" inventory_url EmptyString))%string].
Proof.
  apply (get_product_with_inventory_stops_at_inventory broken_shop "PC61" "Navy" []
           (VDict [("title", VStr "Essential Tee")])
           (HTTPError
              (http_error_msg (failed 503 "Service Unavailable" inventory_url EmptyString))
              (failed 503 "Service Unavailable" inventory_url EmptyString)));
    reflexivity.
Defined.

(** X9 on the open shop: the manager ends with [srv-1], not with the
    identifier it generated. *)
Lemma create_session_adopts_server_id_witness :
  fst (fst (Cart.create_session open_shop (VNum 11824) (Cart.init local_url) []))
  = Return (VDict [("SessionID", VStr "srv-1")])
  /\ snd (fst (Cart.create_session open_shop (VNum 11824) (Cart.init local_url) []))
     = {| Cart.base_url := local_url; Cart.session_id := VStr "srv-1" |}
  /\ requests_sent
       (snd (Cart.create_session open_shop (VNum 11824) (Cart.init local_url) []))
     = [("POST", (local_url ++ "/cart-sessions")%string, None,
         Some (VDict [("SessionID", VStr "session_1700000000_42");
                      ("UserID", VNum 11824);
                      ("IsActive", VBool true)]))].
Proof.
  apply (create_session_adopts_server_id open_shop (VNum 11824)
           (Cart.init local_url) [] [("SessionID", VStr "srv-1")] (VStr "srv-1"));
    reflexivity.
Defined.

(** X11 on the shop whose [/cart-items] answers 500: the item request fails
    and the session [srv-1] stays. *)
Lemma add_item_opens_a_session_first_witness :
  fst (fst (Cart.add_item broken_shop "123" "PC61" "Navy" "Essential Tee"
              (Cart.init local_url) []))
  = Raise (HTTPError
             (http_error_msg (failed 500 "Internal Server Error"
                                (local_url ++ "/cart-items") EmptyString))
             (failed 500 "Internal Server Error" (local_url ++ "/cart-items") EmptyString))
  /\ snd (fst (Cart.add_item broken_shop "123" "PC61" "Navy" "Essential Tee"
                 (Cart.init local_url) []))
     = {| Cart.base_url := local_url; Cart.session_id := VStr "srv-1" |}
  /\ requests_sent
       (snd (Cart.add_item broken_shop "123" "PC61" "Navy" "Essential Tee"
               (Cart.init local_url) []))
     = [("POST", (local_url ++ "/cart-sessions")%string, None,
         Some (VDict [("SessionID", VStr "session_1700000000_42");
                      ("UserID", VNone);
                      ("IsActive", VBool true)]));
        ("POST", (local_url ++ "/cart-items")%string, None,
         Some (VDict [("SessionID", VStr "srv-1");
                      ("ProductID", VStr "123");
                      ("StyleNumber", VStr "PC61");
                      ("Color", VStr "Navy");
                      ("PRODUCT_TITLE", VStr "Essential Tee");
                      ("CartStatus", VStr "Active")]))].
Proof.
  apply (add_item_opens_a_session_first broken_shop "123" "PC61" "Navy"
           "Essential Tee" (Cart.init local_url) []
           [("SessionID", VStr "srv-1")] (VStr "srv-1"));
    reflexivity.
Defined.

(** X12 on the open shop, for a manager that has the session [srv-1]. *)
Lemma add_item_reuses_the_session_witness :
  fst (fst (Cart.add_item open_shop "123" "PC61" "Navy" "Essential Tee"
              {| Cart.base_url := local_url; Cart.session_id := VStr "srv-1" |} []))
  = Return (VDict [("PK_ID", VNum 7)])
  /\ snd (fst (Cart.add_item open_shop "123" "PC61" "Navy" "Essential Tee"
                 {| Cart.base_url := local_url; Cart.session_id := VStr "srv-1" |} []))
     = {| Cart.base_url := local_url; Cart.session_id := VStr "srv-1" |}
  /\ requests_sent
       (snd (Cart.add_item open_shop "123" "PC61" "Navy" "Essential Tee"
               {| Cart.base_url := local_url; Cart.session_id := VStr "srv-1" |} []))
     = [("POST", (local_url ++ "/cart-items")%string, None,
         Some (VDict [("SessionID", VStr "srv-1");
                      ("ProductID", VStr "123");
                      ("StyleNumber", VStr "PC61");
                      ("Color", VStr "Navy");
                      ("PRODUCT_TITLE", VStr "Essential Tee");
                      ("CartStatus", VStr "Active")]))].
Proof.
  apply (add_item_reuses_the_session open_shop "123" "PC61" "Navy"
           "Essential Tee"
           {| Cart.base_url := local_url; Cart.session_id := VStr "srv-1" |} []).
  reflexivity.
Defined.

(** X13 on the shop that cannot be reached for [/cart-sessions]. *)
Lemma add_item_stops_when_no_session_opens_witness :
  fst (fst (Cart.add_item silent_shop "123" "PC61" "Navy" "Essential Tee"
              (Cart.init local_url) []))
  = Raise (RequestException "ConnectionError" "Connection refused")
  /\ snd (fst (Cart.add_item silent_shop "123" "PC61" "Navy" "Essential Tee"
                 (Cart.init local_url) []))
     = Cart.init local_url
  /\ requests_sent
       (snd (Cart.add_item silent_shop "123" "PC61" "Navy" "Essential Tee"
               (Cart.init local_url) []))
     = [("POST", (local_url ++ "/cart-sessions")%string, None,
         Some (VDict [("SessionID", VStr "session_1700000000_42");
                      ("UserID", VNone);
                      ("IsActive", VBool true)]))].
Proof.
  apply (add_item_stops_when_no_session_opens silent_shop "123" "PC61" "Navy"
           "Essential Tee" (Cart.init local_url) []
           (RequestException "ConnectionError" "Connection refused"));
    reflexivity.
Defined.

(** X17 on the shop whose dashboard answers 500. *)
Lemma get_metrics_error_status_witness :
  Dashboard.get_metrics broken_shop local_url (VNum 7) false false []
  = (Raise (HTTPError
              (http_error_msg (failed 500 "Internal Server Error"
                                 (local_url ++ "/order-dashboard") EmptyString))
              (failed 500 "Internal Server Error"
                 (local_url ++ "/order-dashboard") EmptyString)),
     [Sent {| headers := [] |} "GET" (local_url ++ "/order-dashboard")
        [("params", VDict [("days", VNum 7);
                           ("includeDetails", VBool false);
                           ("compareYoY", VBool false)])]]).
Proof.
  apply (get_metrics_error_status broken_shop local_url (VNum 7) false false []
           (failed 500 "Internal Server Error" (local_url ++ "/order-dashboard")
              EmptyString)).
  - reflexivity.
  - simpl. lia.
Defined.

(** X18 on the request of [art_request_workflow], with a [Status] among the
    additional fields. *)
Lemma create_art_request_body_witness :
  exists data,
    requests_sent
      (snd (Art.create_art_request open_shop (Art.init open_shop local_url)
              "Test Company" "In Progress"
              [("Priority", VStr "High"); ("Status", VStr "Completed");
               ("Mockup", VBool true)] []))
    = [("POST", (local_url ++ "/artrequests")%string, None, Some (VDict data))]
    /\ map fst data = ["CompanyName"; "Status"; "Priority"; "Mockup"]
    /\ dict_get "CompanyName" data = Some (VStr "Test Company")
    /\ dict_get "Status" data = Some (VStr "Completed")
    /\ forall k, k <> "CompanyName" -> k <> "Status" ->
                 dict_get k data
                 = dict_get k [("Priority", VStr "High"); ("Status", VStr "Completed");
                               ("Mockup", VBool true)].
Proof.
  apply (create_art_request_body open_shop (Art.init open_shop local_url)
           "Test Company" "In Progress"
           [("Priority", VStr "High"); ("Status", VStr "Completed");
            ("Mockup", VBool true)] []).
  repeat constructor; simpl; intuition discriminate.
Defined.

(** X19 on the shop whose [/artrequests/5] answers 404 with a message. *)
Lemma update_art_request_error_status_witness :
  Art.update_art_request broken_shop (Art.init broken_shop local_url) 5
    [("Status", VStr "Completed")] []
  = (Raise (HTTPError
              (http_error_msg (failed 404 "Not Found" (local_url ++ "/artrequests/5")
                                 not_found_body))
              (failed 404 "Not Found" (local_url ++ "/artrequests/5") not_found_body)),
     [Sent (session (Art.init broken_shop local_url)) "PUT"
        (local_url ++ "/artrequests/5") [("json", VDict [("Status", VStr "Completed")])];
      Decoded not_found_body;
      Printed "API Request failed for /artrequests/5: Not found"]).
Proof.
  apply (update_art_request_error_status broken_shop
           (Art.init broken_shop local_url) 5 [("Status", VStr "Completed")] []
           (failed 404 "Not Found" (local_url ++ "/artrequests/5") not_found_body)).
  - reflexivity.
  - simpl. lia.
Defined.

(** X20 on the example price list: 50 pieces stop the loop at the second
    tier, and the third, which holds 50 as well, and the open-ended fourth
    are not read. *)
Lemma find_applicable_tier_ignores_later_tiers_witness :
  Pricing.find_applicable_tier (PyInt 50) tiers
  = Return (Some [("minQuantity", PyInt 24); ("maxQuantity", PyInt 71);
                  ("price", PyFloat (float_literal 65 1))]).
Proof.
  apply (find_applicable_tier_ignores_later_tiers (PyInt 50)
           [[("minQuantity", PyInt 1); ("maxQuantity", PyInt 23); ("price", PyInt 8)]]
           [("minQuantity", PyInt 24); ("maxQuantity", PyInt 71);
            ("price", PyFloat (float_literal 65 1))]
           [[("minQuantity", PyInt 48); ("maxQuantity", PyInt 143); ("price", PyInt 5)];
            [("minQuantity", PyInt 144); ("price", PyInt 4)]]).
  - repeat constructor.
  - reflexivity.
Defined.

(** X21 on a list whose second tier has no lower bound. *)
Lemma find_applicable_tier_missing_lower_bound_witness :
  Pricing.find_applicable_tier (PyInt 50)
    [[("minQuantity", PyInt 1); ("maxQuantity", PyInt 23); ("price", PyInt 8)];
     [("maxQuantity", PyInt 71); ("price", PyInt 6)];
     [("minQuantity", PyInt 48); ("maxQuantity", PyInt 143); ("price", PyInt 5)]]
  = Raise (BuiltinError "KeyError" "minQuantity").
Proof.
  apply (find_applicable_tier_missing_lower_bound (PyInt 50)
           [[("minQuantity", PyInt 1); ("maxQuantity", PyInt 23); ("price", PyInt 8)]]
           [("maxQuantity", PyInt 71); ("price", PyInt 6)]
           [[("minQuantity", PyInt 48); ("maxQuantity", PyInt 143); ("price", PyInt 5)]]).
  - repeat constructor.
  - reflexivity.
Defined.

(** X22 on an open-ended top tier from 144 pieces: 50 pieces pass it over. *)
Lemma find_applicable_tier_missing_upper_bound_witness :
  Pricing.find_applicable_tier (PyInt 50)
    ([("minQuantity", PyInt 144); ("price", PyInt 4)] :: tiers)
  = Pricing.find_applicable_tier (PyInt 50) tiers.
Proof.
  exact (find_applicable_tier_missing_upper_bound (PyInt 50) (PyInt 144)
           [("minQuantity", PyInt 144); ("price", PyInt 4)] tiers eq_refl eq_refl).
Defined.

(** X23 on an embroidery order whose only tier has no price. *)
Lemma calculate_order_price_needs_the_tier_price_witness :
  Pricing.calculate_order_price
    {| Pricing.get_base_item_costs := fun _ => Return [("S", PyInt 10)];
       Pricing.get_pricing_tiers :=
         fun _ => Return [[("minQuantity", PyInt 1); ("maxQuantity", PyInt 100)]];
       Pricing.get_embroidery_cost := fun _ _ => Return [("cost", PyInt 7)] |}
    "PC61" "Embroidery" (PyInt 25) (Some 5000)
  = Raise (BuiltinError "KeyError" "price").
Proof.
  apply (calculate_order_price_needs_the_tier_price
           {| Pricing.get_base_item_costs := fun _ => Return [("S", PyInt 10)];
              Pricing.get_pricing_tiers :=
                fun _ => Return [[("minQuantity", PyInt 1); ("maxQuantity", PyInt 100)]];
              Pricing.get_embroidery_cost := fun _ _ => Return [("cost", PyInt 7)] |}
           "PC61" "Embroidery" (PyInt 25) (Some 5000)
           [("S", PyInt 10)] [[("minQuantity", PyInt 1); ("maxQuantity", PyInt 100)]]
           [("minQuantity", PyInt 1); ("maxQuantity", PyInt 100)]);
    reflexivity.
Defined.

End BeyondExamples.
